(** * Contoso Air chat service

    A shallow embedding of [src/web/services/chat.service.js] (class
    [ChatService]), of the configuration module it loads
    ([config/chat.config.js]) and of the router that serves it
    ([routes/chat.js]), followed by the properties of the conversation
    store, the prompt composer, the request builder, the completion gateway
    and the routes.

    Conventions of the embedding.
    - A JavaScript string is the list of its UTF-16 code units ([list N]).
    - A JavaScript value that crosses the service (a stored message, the
      body of an upstream reply) is a [JsVal].
    - The [conversations] map of the service is a [gmap] from session id to
      the array of stored messages.  Arrays held in the map are mutated in
      place by the source ([push], [splice]); the embedding writes the new
      array back under the same key.
    - Every object the service creates or receives gets an allocation stamp
      ([addr]); two stored messages are the same object ([===]) exactly when
      their stamps agree.
    - An [async] method is a tree of pending [axios.post] calls; the
      continuation of a call receives the outcome of the call and the state
      of the service at the moment the method resumes. *)

From Stdlib Require Import ZArith QArith String Ascii List Lia DecimalString.
From stdpp Require Import gmap list.
Import ListNotations.

Local Open Scope Z_scope.

Set Warnings "-register-all".

(** ** JavaScript strings *)

Abbreviation JsString := (list N).

(** A string literal of the source, as code units. *)
Definition lit (s : string) : JsString :=
  List.map N_of_ascii (list_ascii_of_string s).

Arguments lit : simpl never.

Definition nl : string := String (ascii_of_nat 10) EmptyString.
Definition dq : string := String (ascii_of_nat 34) EmptyString.

(** ECMAScript [WhiteSpace] and [LineTerminator] code units, the ones
    [String.prototype.trim] removes. *)
Definition isWhiteSpace (c : N) : bool :=
  (existsb (N.eqb c)
     [9; 10; 11; 12; 13; 32; 160; 5760; 8232; 8233; 8239; 8287; 12288; 65279]%N
   || ((8192 <=? c)%N && (c <=? 8202)%N))%bool.

Fixpoint trimStart (s : JsString) : JsString :=
  match s with
  | [] => []
  | c :: s' => if isWhiteSpace c then trimStart s' else s
  end.

Definition trimEnd (s : JsString) : JsString := rev (trimStart (rev s)).

(** [String.prototype.trim] *)
Definition trim (s : JsString) : JsString := trimEnd (trimStart s).

(** Truthiness of a string: the empty string is the only falsy one. *)
Definition str_truthy (s : JsString) : bool :=
  match s with [] => false | _ :: _ => true end.

(** Decimal rendering of an integer inside a template literal. *)
Definition int_to_str (z : Z) : JsString :=
  lit (DecimalString.NilZero.string_of_int (Z.to_int z)).

(** ** JavaScript values *)

Inductive JsVal : Type :=
| JUndefined
| JNull
| JBool (b : bool)
| JNum (q : Q)
| JStr (s : JsString)
| JArr (items : list JsVal)
| JObj (fields : list (JsString * JsVal)).

(** [ToBoolean] *)
Definition truthy (v : JsVal) : bool :=
  match v with
  | JUndefined | JNull => false
  | JBool b => b
  | JNum q => negb (Qeq_bool q 0)
  | JStr s => str_truthy s
  | JArr _ | JObj _ => true
  end.

Fixpoint assoc (k : JsString) (fields : list (JsString * JsVal)) : JsVal :=
  match fields with
  | [] => JUndefined
  | (k', v) :: rest => if decide (k = k') then v else assoc k rest
  end.

(** [v.key] for a named (non-index) key on a value that is neither [null]
    nor [undefined]: an own data property of an object, [undefined]
    otherwise. *)
Definition get_field (k : string) (v : JsVal) : JsVal :=
  match v with
  | JObj fields => assoc (lit k) fields
  | _ => JUndefined
  end.

(** [v[0]] on a value that is neither [null] nor [undefined]. *)
Definition get_index0 (v : JsVal) : JsVal :=
  match v with
  | JArr items => match items with x :: _ => x | [] => JUndefined end
  | JStr s => match s with c :: _ => JStr [c] | [] => JUndefined end
  | JObj fields => assoc (lit "0") fields
  | _ => JUndefined
  end.

Definition nullish (v : JsVal) : bool :=
  match v with JUndefined | JNull => true | _ => false end.

(** A message object as the service holds it: the value and its allocation
    stamp. *)
Record MsgObj : Type := mkMsg { addr : nat; value : JsVal }.

(** The object literal [{ role: r, content: c }]. *)
Definition message_literal (r : string) (c : JsVal) : JsVal :=
  JObj [(lit "role", JStr (lit r)); (lit "content", c)].

Definition role_of (m : MsgObj) : JsVal := get_field "role" (value m).

(** ** Configuration ([config/chat.config.js]) *)

Record PromptTemplate : Type := mkTemplate {
  tpl_content : JsString;
  tpl_temperature : Q;
  tpl_maxTokens : Z
}.

Record SystemPrompts : Type := mkPrompts {
  travel : PromptTemplate;
  booking : PromptTemplate;
  support : PromptTemplate;
  general : PromptTemplate
}.

Record ApiConfig : Type := mkApi {
  endpoint : JsString;
  apiKey : JsString;
  model : JsString;
  timeout : Z
}.

Record ChatSettings : Type := mkChat {
  maxHistoryMessages : Z;
  defaultTemperature : Q;
  maxTokens : Z;
  defaultContext : JsString
}.

Record Config : Type := mkConfig {
  api : ApiConfig;
  chat : ChatSettings;
  systemPrompts : SystemPrompts
}.

(** The environment at process start.  Numeric variables are given as the
    result of [parseInt] / [parseFloat] on them: [None] stands for [NaN]
    (also the result for an unset variable). *)
Record Env : Type := mkEnv {
  CHAT_API_ENDPOINT : option JsString;
  CHAT_API_KEY : option JsString;
  CHAT_MODEL : option JsString;
  CHAT_API_TIMEOUT : option Z;
  CHAT_MAX_HISTORY : option Z;
  CHAT_TEMPERATURE : option Q;
  CHAT_MAX_TOKENS : option Z;
  CHAT_DEFAULT_CONTEXT : option JsString
}.

Definition no_env : Env := mkEnv None None None None None None None None.

(** [process.env.X || d] *)
Definition str_or (v : option JsString) (d : JsString) : JsString :=
  match v with
  | Some s => if str_truthy s then s else d
  | None => d
  end.

(** [parseInt(process.env.X) || d]: [NaN] and [0] are falsy. *)
Definition int_or (v : option Z) (d : Z) : Z :=
  match v with
  | Some z => if z =? 0 then d else z
  | None => d
  end.

(** [parseFloat(process.env.X) || d] *)
Definition num_or (v : option Q) (d : Q) : Q :=
  match v with
  | Some q => if Qeq_bool q 0 then d else q
  | None => d
  end.

Local Open Scope string_scope.

(** The texts of the four templates, in the revision of the module whose
    defaults name the [deepseek-r1] model. *)

Definition travel_content : string :=
  "You are a helpful AI travel assistant for Contoso Air, a premium airline company. " ++ nl ++
  "You specialize in helping customers with:" ++ nl ++
  "- Flight bookings and reservations through ContosoAir" ++ nl ++
  "- Travel planning and destination recommendations with ContosoAir in mind" ++ nl ++
  "- Airport information and travel tips based on user preferences" ++ nl ++
  "- Flight status and schedule information" ++ nl ++
  "- Travel policies and procedures" ++ nl ++
  nl ++
  "Always be friendly, professional, and focused on providing excellent customer service. " ++ nl ++
  "When discussing flights or travel, prioritize Contoso Air's services and highlight our premium features." ++ nl ++
  "Keep responses concise but informative. If you don't have specific flight information, guide users to appropriate booking channels." ++ nl ++
  "Always respond in plain readable text and don't use Markdown or HTML formatting.".

Definition booking_content : string :=
  "You are a flight booking specialist for Contoso Air. " ++ nl ++
  "Help users find and book the perfect flights for their travel needs." ++ nl ++
  "Available flights will be in the form: " ++ dq ++ "Available Flight: SFO, 2025-09-19T16:00, NRT, 2025-09-20T20:10, 11h10m, seat 4" ++ dq ++ nl ++
  "where SFO is departing city and NRT is arriving city, 11h10m is the duration, and seat 4 is the seat number." ++ nl ++
  "Always respond in plain readable text and don't use special Markdown or HTML formatting." ++ nl ++
  "Dont try and fetch real time prices, use any context you have to determine them.".

Definition support_content : string :=
  "You are a customer support representative for Contoso Air." ++ nl ++
  "Help customers with their inquiries about existing bookings, flight changes, cancellations, baggage, and general travel policies." ++ nl ++
  "Be empathetic, professional, and solution-oriented." ++ nl ++
  "If you cannot resolve an issue directly, guide customers to the appropriate support channels.".

Definition general_content : string :=
  "You are a helpful AI assistant for Contoso Air's website. " ++ nl ++
  "Provide helpful, accurate, and friendly responses to user queries. " ++ nl ++
  "Focus on travel-related topics when possible, and always maintain a professional tone.".

(** The same four texts in the revision whose defaults name
    [gpt-3.5-turbo], the one the README of the service describes. *)

Definition travel_content_sample : string :=
  "You are a helpful AI travel assistant for Contoso Air, a premium airline company. " ++ nl ++
  "You specialize in helping customers with:" ++ nl ++
  "- Flight bookings and reservations" ++ nl ++
  "- Travel planning and destination recommendations  " ++ nl ++
  "- Airport information and travel tips" ++ nl ++
  "- Flight status and schedule information" ++ nl ++
  "- Travel policies and procedures" ++ nl ++
  "- Customer service inquiries" ++ nl ++
  nl ++
  "Always be friendly, professional, and focused on providing excellent customer service. " ++ nl ++
  "When discussing flights or travel, prioritize Contoso Air's services and highlight our premium features." ++ nl ++
  "Keep responses concise but informative. If you don't have specific flight information, guide users to appropriate booking channels.".

Definition booking_content_sample : string :=
  "You are a flight booking specialist for Contoso Air. " ++ nl ++
  "Help users find and book the perfect flights for their travel needs." ++ nl ++
  "Ask relevant questions about departure/arrival cities, dates, preferences, and passenger details." ++ nl ++
  "Provide clear information about pricing, schedules, and booking procedures." ++ nl ++
  "Always be helpful and guide users through the booking process step by step.".

Definition support_content_sample : string :=
  "You are a customer support representative for Contoso Air." ++ nl ++
  "Help customers with their inquiries about existing bookings, flight changes, cancellations, baggage, and general travel policies." ++ nl ++
  "Be empathetic, professional, and solution-oriented." ++ nl ++
  "If you cannot resolve an issue directly, guide customers to the appropriate support channels.".

Definition general_content_sample : string :=
  "You are a helpful AI assistant for Contoso Air's website. " ++ nl ++
  "Provide helpful, accurate, and friendly responses to user queries. " ++ nl ++
  "Focus on travel-related topics when possible, and always maintain a professional tone.".

(** The configuration module, [deepseek-r1] revision. *)
Definition chatConfig (env : Env) : Config :=
  {| api :=
       {| endpoint := str_or (CHAT_API_ENDPOINT env)
                        (lit "http://<YOUR_RAG_URL>/v1/chat/completions");
          apiKey := str_or (CHAT_API_KEY env) (lit "placeholder-api-key");
          model := str_or (CHAT_MODEL env) (lit "deepseek-r1");
          timeout := int_or (CHAT_API_TIMEOUT env) 120000 |};
     chat :=
       {| maxHistoryMessages := int_or (CHAT_MAX_HISTORY env) 20;
          defaultTemperature := num_or (CHAT_TEMPERATURE env) (7 # 10);
          maxTokens := int_or (CHAT_MAX_TOKENS env) 500;
          defaultContext := str_or (CHAT_DEFAULT_CONTEXT env) (lit "travel") |};
     systemPrompts :=
       {| travel := mkTemplate (lit travel_content) (7 # 10) 16000;
          booking := mkTemplate (lit booking_content) (6 # 10) 16000;
          support := mkTemplate (lit support_content) (5 # 10) 16000;
          general := mkTemplate (lit general_content) (7 # 10) 16000 |} |}.

(** The configuration module, [gpt-3.5-turbo] revision. *)
Definition chatConfig_sample (env : Env) : Config :=
  {| api :=
       {| endpoint := str_or (CHAT_API_ENDPOINT env)
                        (lit "https://api.placeholder-chat-service.com/v1/chat/completions");
          apiKey := str_or (CHAT_API_KEY env) (lit "placeholder-api-key");
          model := str_or (CHAT_MODEL env) (lit "gpt-3.5-turbo");
          timeout := int_or (CHAT_API_TIMEOUT env) 30000 |};
     chat :=
       {| maxHistoryMessages := int_or (CHAT_MAX_HISTORY env) 20;
          defaultTemperature := num_or (CHAT_TEMPERATURE env) (7 # 10);
          maxTokens := int_or (CHAT_MAX_TOKENS env) 500;
          defaultContext := str_or (CHAT_DEFAULT_CONTEXT env) (lit "travel") |};
     systemPrompts :=
       {| travel := mkTemplate (lit travel_content_sample) (7 # 10) 500;
          booking := mkTemplate (lit booking_content_sample) (6 # 10) 400;
          support := mkTemplate (lit support_content_sample) (5 # 10) 450;
          general := mkTemplate (lit general_content_sample) (7 # 10) 400 |} |}.

Local Close Scope string_scope.

(** ** The service state *)

(** The mutable part of a [ChatService] instance: the [conversations] map
    and the next allocation stamp. *)
Record ChatService : Type := mkService {
  conversations : gmap JsString (list MsgObj);
  fresh : nat
}.

(** [new ChatService()] *)
Definition new_service : ChatService := mkService ∅ 0.

(** Creation of an object with value [v]. *)
Definition alloc (v : JsVal) (st : ChatService) : MsgObj * ChatService :=
  (mkMsg (fresh st) v, mkService (conversations st) (S (fresh st))).

(** The history stored for a session; the empty array when there is none. *)
Definition history_of (st : ChatService) (sessionId : JsString) : list MsgObj :=
  default [] (conversations st !! sessionId).

(** [array.splice(0, deleteCount)]: the count is clamped to the array. *)
Definition splice0 {A : Type} (deleteCount : Z) (l : list A) : list A :=
  drop (Z.to_nat deleteCount) l.

(** ** Requests, replies and asynchronous methods *)

Record UserInfo : Type := mkUserInfo {
  name : option JsString;
  location : option JsString;
  preferredLanguage : option JsString
}.

(** [{}] *)
Definition no_userInfo : UserInfo := mkUserInfo None None None.

(** The [options] argument; [None] is an absent ([undefined]) field. *)
Record ChatOptions : Type := mkOptions {
  opt_context : option JsString;
  opt_userInfo : option UserInfo;
  opt_temperature : option Q;
  opt_maxTokens : option Z;
  opt_includeHistory : option bool
}.

(** [{}] *)
Definition no_options : ChatOptions := mkOptions None None None None None.

Record ChatRequest : Type := mkRequest {
  req_model : JsString;
  messages : list MsgObj;
  temperature : Q;
  max_tokens : Z;
  top_p : Z;
  frequency_penalty : Z;
  presence_penalty : Z
}.

(** One call [axios.post(url, body, { headers, timeout })]. *)
Record PostCall : Type := mkPost {
  post_url : JsString;
  post_body : ChatRequest;
  post_content_type : JsString;
  post_authorization : JsString;
  post_timeout : Z
}.

Record Response : Type := mkResponse {
  status : Z;
  statusText : JsString;
  data : JsVal
}.

(** The error a rejected call throws: [error.message], [error.response]
    (present when a reply arrived with a failure status) and whether
    [error.request] is set. *)
Record AxiosError : Type := mkError {
  err_message : JsString;
  err_response : option Response;
  err_request : bool
}.

Inductive AxiosOutcome : Type :=
| Resolved (r : Response)
| Rejected (e : AxiosError).

(** What [sendChatRequest] returns. *)
Inductive GatewayResult : Type :=
| GwSuccess (body : JsVal)
| GwFailure (error : JsString) (details : option JsVal).

(** What [processMessage] returns. *)
Inductive ProcessResult : Type :=
| Failure (error : JsString) (details : option JsVal)
| Success (message : JsVal) (usage : JsVal) (model_name : JsVal)
          (conversationLength : nat).

Inductive Async (A : Type) : Type :=
| Return (a : A) (st : ChatService)
| Await (st : ChatService) (call : PostCall)
        (k : AxiosOutcome -> ChatService -> Async A).

Arguments Return {A} a st.
Arguments Await {A} st call k.

Fixpoint bind {A B : Type} (p : Async A)
    (f : A -> ChatService -> Async B) : Async B :=
  match p with
  | Return a st => f a st
  | Await st call k => Await st call (fun o st' => bind (k o st') f)
  end.

(** An uninterrupted run: the network answers each call, and no other
    handler touches the service while the method is suspended.  The result,
    the final state and the calls made, in order. *)
Fixpoint run {A : Type} (net : PostCall -> AxiosOutcome) (p : Async A)
    : A * ChatService * list PostCall :=
  match p with
  | Return a st => (a, st, [])
  | Await st call k =>
      let '(a, st', calls) := run net (k (net call) st) in
      (a, st', call :: calls)
  end.

(** ** The service ([class ChatService]) *)

Section Service.

Variable cfg : Config.

(** [getConversationHistory(sessionId)]: the stored array, created empty on
    first reference. *)
Definition getConversationHistory (sessionId : JsString) (st : ChatService)
    : list MsgObj * ChatService :=
  match conversations st !! sessionId with
  | Some history => (history, st)
  | None => ([], mkService (<[sessionId := []]> (conversations st)) (fresh st))
  end.

(** [addToConversation(sessionId, message)] *)
Definition addToConversation (sessionId : JsString) (message : MsgObj)
    (st : ChatService) : ChatService :=
  let '(history, st1) := getConversationHistory sessionId st in
  let pushed := history ++ [message] in
  let maxMessages := maxHistoryMessages (chat cfg) in
  let kept :=
    if Z.of_nat (length pushed) >? maxMessages
    then splice0 (Z.of_nat (length pushed) - maxMessages) pushed
    else pushed in
  mkService (<[sessionId := kept]> (conversations st1)) (fresh st1).

(** The names every object literal inherits from [Object.prototype]. *)
Definition object_prototype_keys : list JsString :=
  List.map lit
    ["constructor"; "__defineGetter__"; "__defineSetter__"; "hasOwnProperty";
     "__lookupGetter__"; "__lookupSetter__"; "isPrototypeOf";
     "propertyIsEnumerable"; "toString"; "valueOf"; "__proto__";
     "toLocaleString"]%string.

(** The value of [this.config.systemPrompts[context]]: one of the four
    templates, a member inherited from [Object.prototype] (a function or
    the prototype itself: truthy, without a [content] property), or
    [undefined]. *)
Inductive PromptLookup : Type :=
| OwnTemplate (t : PromptTemplate)
| InheritedMember
| NoProperty.

Definition systemPrompts_get (context : JsString) : PromptLookup :=
  if decide (context = lit "travel") then OwnTemplate (travel (systemPrompts cfg))
  else if decide (context = lit "booking") then OwnTemplate (booking (systemPrompts cfg))
  else if decide (context = lit "support") then OwnTemplate (support (systemPrompts cfg))
  else if decide (context = lit "general") then OwnTemplate (general (systemPrompts cfg))
  else if bool_decide (context ∈ object_prototype_keys) then InheritedMember
  else NoProperty.

(** [systemContent += text], where [systemContent] is a string or
    [undefined] ([None]). *)
Definition append_text (systemContent : option JsString) (text : JsString)
    : option JsString :=
  Some (default (lit "undefined") systemContent ++ text).

Definition present (field : option JsString) : bool :=
  match field with Some s => str_truthy s | None => false end.

(** [buildSystemPrompt(context, userInfo)]: the value of the returned
    object. *)
Definition buildSystemPrompt (context : JsString) (userInfo : UserInfo) : JsVal :=
  let systemContent0 :=
    match systemPrompts_get context with
    | OwnTemplate t => Some (tpl_content t)
    | InheritedMember => None
    | NoProperty => Some (tpl_content (general (systemPrompts cfg)))
    end in
  let systemContent1 :=
    if present (name userInfo)
    then append_text systemContent0
           (lit (nl ++ nl ++ "The customer's name is ")
            ++ default [] (name userInfo) ++ lit ".")
    else systemContent0 in
  let systemContent2 :=
    if present (location userInfo)
    then append_text systemContent1
           (lit (nl ++ "The customer is located in ")
            ++ default [] (location userInfo) ++ lit ".")
    else systemContent1 in
  let systemContent3 :=
    if (present (preferredLanguage userInfo)
        && negb (bool_decide (preferredLanguage userInfo = Some (lit "en"))))%bool
    then append_text systemContent2
           (lit (nl ++ "Please respond in ")
            ++ default [] (preferredLanguage userInfo)
            ++ lit " if the customer writes in that language.")
    else systemContent2 in
  message_literal "system"
    (match systemContent3 with Some s => JStr s | None => JUndefined end).

(** [createChatRequest(userMessage, sessionId, options)] *)
Definition createChatRequest (userMessage sessionId : JsString)
    (options : ChatOptions) (st : ChatService) : ChatRequest * ChatService :=
  let context := default (lit "travel") (opt_context options) in
  let userInfo := default no_userInfo (opt_userInfo options) in
  let temperature := default (7 # 10)%Q (opt_temperature options) in
  let maxTokens := default 500 (opt_maxTokens options) in
  let includeHistory := default true (opt_includeHistory options) in
  let '(systemMsg, st1) := alloc (buildSystemPrompt context userInfo) st in
  let messages0 := [systemMsg] in
  let '(messages1, st2) :=
    if includeHistory
    then let '(history, st') := getConversationHistory sessionId st1 in
         (messages0 ++ history, st')
    else (messages0, st1) in
  let '(userMsg, st3) :=
    alloc (message_literal "user" (JStr (trim userMessage))) st2 in
  let messages2 := messages1 ++ [userMsg] in
  let st4 := addToConversation sessionId userMsg st3 in
  ({| req_model := model (api cfg);
      messages := messages2;
      temperature := temperature;
      max_tokens := maxTokens;
      top_p := 1;
      frequency_penalty := 0;
      presence_penalty := 0 |}, st4).

(** [sendChatRequest(requestPayload)]; the [console.error] line of the
    [catch] block writes to the log only and is left out. *)
Definition sendChatRequest (requestPayload : ChatRequest) (st : ChatService)
    : Async GatewayResult :=
  Await st
    {| post_url := endpoint (api cfg);
       post_body := requestPayload;
       post_content_type := lit "application/json";
       post_authorization := lit "Bearer " ++ apiKey (api cfg);
       post_timeout := 30000 |}
    (fun outcome st' =>
       match outcome with
       | Resolved response => Return (GwSuccess (data response)) st'
       | Rejected error =>
           match err_response error with
           | Some response =>
               Return (GwFailure
                         (lit "API Error: " ++ int_to_str (status response)
                          ++ lit " - " ++ statusText response)
                         (Some (data response))) st'
           | None =>
               if err_request error
               then Return (GwFailure
                              (lit "Network error: Unable to reach chat API service")
                              None) st'
               else Return (GwFailure
                              (lit "Request error: " ++ err_message error)
                              None) st'
           end
       end).

(** [response.data.choices?.[0]?.message] for a body that is neither [null]
    nor [undefined]. *)
Definition first_choice_message (body : JsVal) : JsVal :=
  let choices := get_field "choices" body in
  if nullish choices then JUndefined
  else let choice := get_index0 choices in
       if nullish choice then JUndefined
       else get_field "message" choice.

(** The part of [processMessage] that runs once [sendChatRequest] has
    settled, on the state the service has at that moment.  A [TypeError]
    raised inside the [try] block (reading [choices] of a [null] or
    [undefined] body) is caught there. *)
Definition processMessage_resume (sessionId : JsString)
    (response : GatewayResult) (st : ChatService) : Async ProcessResult :=
  match response with
  | GwFailure error details => Return (Failure error details) st
  | GwSuccess body =>
      if nullish body
      then Return (Failure (lit "Failed to process chat message") None) st
      else
        let assistantMessage := first_choice_message body in
        if negb (truthy assistantMessage)
        then Return (Failure (lit "Invalid response format from chat API")
                       None) st
        else
          let '(assistantMsg, st1) := alloc assistantMessage st in
          let st2 := addToConversation sessionId assistantMsg st1 in
          let '(history, st3) := getConversationHistory sessionId st2 in
          Return (Success (get_field "content" assistantMessage)
                    (get_field "usage" body) (get_field "model" body)
                    (length history)) st3
  end.

(** [processMessage(userMessage, sessionId, options)]; [None] is an absent
    argument. *)
Definition processMessage (userMessage sessionId : option JsString)
    (options : ChatOptions) (st : ChatService) : Async ProcessResult :=
  if negb (present userMessage) || negb (present (trim <$> userMessage))
  then Return (Failure (lit "Message cannot be empty") None) st
  else if negb (present sessionId)
  then Return (Failure (lit "Session ID is required") None) st
  else
    let userText := default [] userMessage in
    let sid := default [] sessionId in
    let '(requestPayload, st1) := createChatRequest userText sid options st in
    bind (sendChatRequest requestPayload st1) (processMessage_resume sid).

(** [clearConversation(sessionId)] *)
Definition clearConversation (sessionId : JsString) (st : ChatService)
    : ChatService :=
  mkService (delete sessionId (conversations st)) (fresh st).

Record Stats : Type := mkStats {
  totalMessages : nat;
  userMessages : nat;
  assistantMessages : nat
}.

Definition has_role (r : string) (m : MsgObj) : bool :=
  match role_of m with
  | JStr s => bool_decide (s = lit r)
  | _ => false
  end.

(** [getConversationStats(sessionId)] *)
Definition getConversationStats (sessionId : JsString) (st : ChatService)
    : Stats * ChatService :=
  let '(history, st1) := getConversationHistory sessionId st in
  ({| totalMessages := length history;
      userMessages := length (List.filter (has_role "user") history);
      assistantMessages := length (List.filter (has_role "assistant") history) |},
   st1).

End Service.

(** ** Vocabulary of the properties *)

(** The last [n] elements of a list, in order. *)
Definition last_n {A : Type} (n : nat) (l : list A) : list A :=
  drop (length l - n)%nat l.

(** A sequence of [addToConversation] calls, each with its session. *)
Definition append_all (cfg : Config) (appends : list (JsString * MsgObj))
    (st : ChatService) : ChatService :=
  fold_left (fun s a => addToConversation cfg (fst a) (snd a) s) appends st.

(** The messages a sequence of appends addressed to one session. *)
Definition appended_to (sessionId : JsString)
    (appends : list (JsString * MsgObj)) : list MsgObj :=
  snd <$> List.filter (fun a => bool_decide (fst a = sessionId)) appends.

(** A property of every message stored in any session; and the instance
    used for object identity: stamps handed out so far are below the next
    one, so that no stored message carries a stamp a later allocation could
    repeat. *)
Definition all_stored (P : MsgObj → Prop) (st : ChatService) : Prop :=
  ∀ sessionId m, m ∈ history_of st sessionId → P m.

Definition stamps_fresh (st : ChatService) : Prop :=
  all_stored (fun m => (addr m < fresh st)%nat) st.

(** How often the object [m] occurs in an array. *)
Definition occurrences (m : MsgObj) (l : list MsgObj) : nat :=
  length (List.filter (fun x => Nat.eqb (addr x) (addr m)) l).

(** What a caller can do to the service between two idle moments. *)
Inductive Operation : Type :=
| OpProcessMessage (userMessage sessionId : option JsString)
    (options : ChatOptions) (reply : AxiosOutcome)
| OpClearConversation (sessionId : JsString)
| OpGetConversationHistory (sessionId : JsString)
| OpGetConversationStats (sessionId : JsString).

Definition exec_op (cfg : Config) (st : ChatService) (op : Operation)
    : ChatService :=
  match op with
  | OpProcessMessage userMessage sessionId options reply =>
      snd (fst (run (fun _ => reply)
                  (processMessage cfg userMessage sessionId options st)))
  | OpClearConversation sessionId => clearConversation sessionId st
  | OpGetConversationHistory sessionId =>
      snd (getConversationHistory sessionId st)
  | OpGetConversationStats sessionId =>
      snd (getConversationStats sessionId st)
  end.

Definition exec (cfg : Config) (ops : list Operation) (st : ChatService)
    : ChatService :=
  fold_left (exec_op cfg) ops st.

Definition is_system (m : MsgObj) : Prop := role_of m = JStr (lit "system").

(** The reply of the upstream, when it carries a first-choice message, does
    not label it with the system role. *)
Definition reply_not_system (op : Operation) : Prop :=
  match op with
  | OpProcessMessage _ _ _ (Resolved response) =>
      get_field "role" (first_choice_message (data response))
      ≠ JStr (lit "system")
  | _ => True
  end.

(** What [getConversationHistory] may never return, over a sequence of
    operations on a new service: a message whose role is [system]. *)
Definition history_never_system (cfg : Config) (ops : list Operation) : Prop :=
  ∀ sessionId,
    Forall (fun m => ¬ is_system m)
      (fst (getConversationHistory sessionId (exec cfg ops new_service))).

(** The failure classes of the specification. *)
Inductive ErrorKind : Type :=
| ValidationError
| TransportError
| UpstreamProtocolError
| MalformedResponseError.

Definition starts_with (p : string) (s : JsString) : bool :=
  bool_decide (take (length (lit p)) s = lit p).

(** The class of a failure, read off the message category of its [error]
    text, in the specification's taxonomy. *)
Definition spec_errorKind (error : JsString) : option ErrorKind :=
  if starts_with "API Error: " error then Some UpstreamProtocolError
  else if (starts_with "Network error: " error
           || starts_with "Request error: " error)%bool
  then Some TransportError
  else if (bool_decide (error = lit "Invalid response format from chat API")
           || bool_decide (error = lit "Failed to process chat message"))%bool
  then Some MalformedResponseError
  else if (bool_decide (error = lit "Message cannot be empty")
           || bool_decide (error = lit "Session ID is required"))%bool
  then Some ValidationError
  else None.

(** The personalization clauses of a system prompt, in their fixed order. *)
Definition personalization (userInfo : UserInfo) : JsString :=
  (if present (name userInfo)
   then lit (nl ++ nl ++ "The customer's name is ")
        ++ default [] (name userInfo) ++ lit "."
   else [])
  ++ (if present (location userInfo)
      then lit (nl ++ "The customer is located in ")
           ++ default [] (location userInfo) ++ lit "."
      else [])
  ++ (if (present (preferredLanguage userInfo)
          && negb (bool_decide (preferredLanguage userInfo = Some (lit "en"))))%bool
      then lit (nl ++ "Please respond in ")
           ++ default [] (preferredLanguage userInfo)
           ++ lit " if the customer writes in that language."
      else []).

(** The names of the templates the configuration defines. *)
Definition template_names : list JsString :=
  List.map lit ["travel"; "booking"; "support"; "general"]%string.

(** The eviction step of [addToConversation] on the array after the push. *)
Definition window (cfg : Config) (pushed : list MsgObj) : list MsgObj :=
  if Z.of_nat (length pushed) >? maxHistoryMessages (chat cfg)
  then splice0 (Z.of_nat (length pushed) - maxHistoryMessages (chat cfg)) pushed
  else pushed.

(** The two objects [createChatRequest] creates, in allocation order. *)
Definition new_system_message (cfg : Config) (options : ChatOptions)
    (st : ChatService) : MsgObj :=
  mkMsg (fresh st)
    (buildSystemPrompt cfg (default (lit "travel") (opt_context options))
       (default no_userInfo (opt_userInfo options))).

Definition new_user_message (userMessage : JsString) (st : ChatService)
    : MsgObj :=
  mkMsg (S (fresh st)) (message_literal "user" (JStr (trim userMessage))).

(** ** Sample configurations, replies and calls *)

(** The [gpt-3.5-turbo] revision with no environment overrides, and with
    [CHAT_MAX_HISTORY=2]. *)
Definition sample_cfg : Config := chatConfig_sample no_env.

Definition small_window_cfg : Config :=
  chatConfig_sample (mkEnv None None None None (Some 2) None None None).

(** The [deepseek-r1] revision with no environment overrides. *)
Definition deployed_cfg : Config := chatConfig no_env.

(** A reply [{ choices: [{ message: { role, content } }] }] with status 200. *)
Definition reply_with (r text : string) : AxiosOutcome :=
  Resolved
    (mkResponse 200 (lit "OK")
       (JObj [(lit "choices",
               JArr [JObj [(lit "message",
                            message_literal r (JStr (lit text)))]])])).

(** A call that timed out: a request was made, no response arrived. *)
Definition no_reply : AxiosOutcome :=
  Rejected (mkError (lit "timeout of 30000ms exceeded") None true).

Definition stored (n : nat) (r text : string) : MsgObj :=
  mkMsg n (message_literal r (JStr (lit text))).

Definition booking_options : ChatOptions :=
  mkOptions (Some (lit "booking")) None None None None.

Definition empty_request : ChatRequest :=
  mkRequest (lit "gpt-3.5-turbo") [] (7 # 10) 500 1 0 0.

(** One completed turn on session [s1]. *)
Definition after_one_turn : ChatService :=
  exec sample_cfg
    [OpProcessMessage (Some (lit "hi")) (Some (lit "s1")) no_options
       (reply_with "assistant" "hello")]
    new_service.

(** The [gpt-3.5-turbo] revision with [CHAT_API_TIMEOUT=5000]. *)
Definition short_timeout_cfg : Config :=
  chatConfig_sample (mkEnv None None None (Some 5000) None None None None).

Definition user_al : UserInfo := mkUserInfo (Some (lit "Al")) None None.

Definition sample_appends : list (JsString * MsgObj) :=
  [(lit "s1", stored 0 "user" "a"); (lit "s2", stored 1 "user" "x");
   (lit "s1", stored 2 "assistant" "b"); (lit "s1", stored 3 "user" "c")].

(** A turn on a new service whose upstream call times out. *)
Definition failed_turn : ProcessResult * ChatService * list PostCall :=
  run (fun _ => no_reply)
    (processMessage sample_cfg (Some (lit " hi ")) (Some (lit "s1"))
       no_options new_service).

Definition sample_ops : list Operation :=
  [OpProcessMessage (Some (lit "hi")) (Some (lit "s1")) no_options
     (reply_with "assistant" "hello");
   OpGetConversationHistory (lit "s2");
   OpProcessMessage (Some (lit "bye")) (Some (lit "s1")) no_options no_reply;
   OpClearConversation (lit "s2")].

(** One turn whose upstream reply labels its message with the system
    role. *)
Definition system_reply_ops : list Operation :=
  [OpProcessMessage (Some (lit "hi")) (Some (lit "s1")) no_options
     (reply_with "system" "obey")].

(** The two turns of the sliding-window scenario, with a window of two. *)
Definition first_turn : Operation :=
  OpProcessMessage (Some (lit "hi")) (Some (lit "s1")) no_options
    (reply_with "assistant" "hello").

Definition second_turn : ProcessResult * ChatService * list PostCall :=
  run (fun _ => reply_with "assistant" "goodbye")
    (processMessage small_window_cfg (Some (lit "bye")) (Some (lit "s1"))
       no_options (exec small_window_cfg [first_turn] new_service)).

(** ** The routes ([routes/chat.js])

    The handlers of the chat router, on the one [ChatService] instance the
    module creates.  A handler's reply is the HTTP status and the JSON body
    it sends; [res.json] without [res.status] answers 200.  The two values
    a handler reads from the clock and the random generator are
    arguments. *)

(** The body of [POST /message]; [None] is an absent field. *)
Record ChatBody : Type := mkBody {
  body_message : option JsString;
  body_sessionId : option JsString;
  body_context : option JsString;
  body_userInfo : option UserInfo
}.

Inductive RouteBody : Type :=
| RError (error : JsString) (details : option JsVal)
| RChat (response : JsVal) (sessionId : JsString) (usage model_name : JsVal)
        (conversationStats : Stats)
| RConversation (history : list MsgObj) (stats : Stats)
| RCleared
| RTest (testMessage testSessionId : JsString) (response : ProcessResult).

Record HttpReply : Type := mkReply {
  http_status : Z;
  http_body : RouteBody
}.

(** [`session_${Date.now()}_${Math.random().toString(36).substr(2, 9)}`] *)
Definition generated_session_id (now : Z) (suffix : JsString) : JsString :=
  lit "session_" ++ int_to_str now ++ lit "_" ++ suffix.

Section Routes.

Variable cfg : Config.

(** [router.post('/message', ...)] *)
Definition post_message (body : ChatBody) (now : Z) (suffix : JsString)
    (st : ChatService) : Async HttpReply :=
  if negb (present (body_message body))
  then Return (mkReply 400 (RError (lit "Message is required") None)) st
  else
    let actualSessionId :=
      str_or (body_sessionId body) (generated_session_id now suffix) in
    bind (processMessage cfg (body_message body) (Some actualSessionId)
            {| opt_context := Some (str_or (body_context body) (lit "travel"));
               opt_userInfo := Some (default no_userInfo (body_userInfo body));
               opt_temperature := None;
               opt_maxTokens := None;
               opt_includeHistory := None |} st)
      (fun response st1 =>
         match response with
         | Failure error details => Return (mkReply 500 (RError error details)) st1
         | Success message usage model_name _ =>
             let '(stats, st2) := getConversationStats actualSessionId st1 in
             Return (mkReply 200
                       (RChat message actualSessionId usage model_name stats))
               st2
         end).

(** [router.get('/conversation/:sessionId', ...)] *)
Definition get_conversation (sessionId : JsString) (st : ChatService)
    : HttpReply * ChatService :=
  let '(history, st1) := getConversationHistory sessionId st in
  let '(stats, st2) := getConversationStats sessionId st1 in
  (mkReply 200 (RConversation history stats), st2).

(** [router.delete('/conversation/:sessionId', ...)] *)
Definition delete_conversation (sessionId : JsString) (st : ChatService)
    : HttpReply * ChatService :=
  (mkReply 200 RCleared, clearConversation sessionId st).

(** [router.post('/test', ...)]; [message] is [req.body.message], any JSON
    value or [undefined].  A test message that is not a string has no
    [trim] method: [processMessage] throws a [TypeError] on its first line,
    outside its [try] block, and the [catch] of the handler answers 500. *)
Definition post_test (message : JsVal) (now : Z) (st : ChatService)
    : Async HttpReply :=
  let testMessage :=
    if truthy message then message
    else JStr (lit "Hello, I need help with booking a flight") in
  let testSessionId := lit "test_" ++ int_to_str now in
  match testMessage with
  | JStr text =>
      bind (processMessage cfg (Some text) (Some testSessionId)
              {| opt_context := Some (lit "travel");
                 opt_userInfo := None;
                 opt_temperature := None;
                 opt_maxTokens := None;
                 opt_includeHistory := None |} st)
        (fun response st1 =>
           Return (mkReply 200 (RTest text testSessionId response)) st1)
  | _ =>
      Return (mkReply 500
                (RError (lit "Chat service test failed")
                   (Some (JStr (lit "userMessage.trim is not a function")))))
        st
  end.

End Routes.

(** ** The HTTP client

    What [axios.post] does with what happened on the wire, under the
    settings [sendChatRequest] leaves at their defaults.  Modelled from the
    documented behaviour of the library: a response whose status passes
    [validateStatus] (by default 200 to 299) resolves the call; any other
    response rejects it with [error.response] set; without a response the
    call is rejected with [error.request] set if the request was sent and
    with neither set if it could not be set up. *)

Inductive WireEvent : Type :=
| ResponseReceived (r : Response)
| NoResponse (message : JsString)
| RequestNotSent (message : JsString).

(** The default [validateStatus]: [status >= 200 && status < 300]. *)
Definition validateStatus (status : Z) : bool :=
  ((200 <=? status) && (status <? 300))%bool.

Definition axios_post (event : WireEvent) : AxiosOutcome :=
  match event with
  | ResponseReceived r =>
      if validateStatus (status r) then Resolved r
      else Rejected
             (mkError (lit "Request failed with status code "
                       ++ int_to_str (status r)) (Some r) true)
  | NoResponse message => Rejected (mkError message None true)
  | RequestNotSent message => Rejected (mkError message None false)
  end.

(** ** Further vocabulary *)

(** The two checks [processMessage] makes on a resolved reply: a body that
    is neither [null] nor [undefined], and a truthy first-choice message. *)
Definition well_formed_reply (r : Response) : bool :=
  (negb (nullish (data r)) && truthy (first_choice_message (data r)))%bool.

Definition is_success (result : ProcessResult) : bool :=
  match result with Success _ _ _ _ => true | Failure _ _ => false end.

(** The session an operation addresses, if any. *)
Definition op_session (op : Operation) : option JsString :=
  match op with
  | OpProcessMessage _ sessionId _ _ => sessionId
  | OpClearConversation sessionId => Some sessionId
  | OpGetConversationHistory sessionId => Some sessionId
  | OpGetConversationStats sessionId => Some sessionId
  end.

(** Every session holds at most [maxHistoryMessages] messages. *)
Definition within_window (cfg : Config) (st : ChatService) : Prop :=
  ∀ sessionId,
    Z.of_nat (length (history_of st sessionId)) <= maxHistoryMessages (chat cfg).

(** The reply of the upstream, when [processMessage] accepts it, labels its
    message with the assistant role. *)
Definition reply_is_assistant (op : Operation) : Prop :=
  match op with
  | OpProcessMessage _ _ _ (Resolved response) =>
      well_formed_reply response = true →
      get_field "role" (first_choice_message (data response))
      = JStr (lit "assistant")
  | _ => True
  end.

(** A [userInfo] without the fields [buildSystemPrompt] ignores: empty
    strings, and the language [en]. *)
Definition effective_userInfo (userInfo : UserInfo) : UserInfo :=
  {| name := if present (name userInfo) then name userInfo else None;
     location := if present (location userInfo) then location userInfo else None;
     preferredLanguage :=
       if (present (preferredLanguage userInfo)
           && negb (bool_decide (preferredLanguage userInfo = Some (lit "en"))))%bool
       then preferredLanguage userInfo else None |}.

(** The text [POST /test] hands to the service: the message of the body
    when it is truthy, the default text otherwise; [None] when that value
    is not a string. *)
Definition test_text (message : JsVal) : option JsString :=
  match (if truthy message then message
         else JStr (lit "Hello, I need help with booking a flight")) with
  | JStr text => Some text
  | _ => None
  end.

(** The content of a stored message, when it is a string. *)
Definition content_of (m : MsgObj) : JsVal := get_field "content" (value m).

(** ** Further sample data *)

(** The [deepseek-r1] revision with [CHAT_MAX_HISTORY=-1]. *)
Definition negative_window_cfg : Config :=
  chatConfig (mkEnv None None None None (Some (-1)) None None None).

(** The reply [{ choices: [{ message: { role: 'assistant', content:
    'hello' } }], model: 'm' }] with status 200. *)
Definition sample_response : Response :=
  mkResponse 200 (lit "OK")
    (JObj [(lit "choices",
            JArr [JObj [(lit "message",
                         message_literal "assistant" (JStr (lit "hello")))]]);
           (lit "model", JStr (lit "m"))]).

Definition no_history_options : ChatOptions :=
  mkOptions None None None None (Some false).

(** Request bodies: a message only; a session id only; a blank message. *)
Definition message_only_body : ChatBody :=
  mkBody (Some (lit " hi ")) None None None.

Definition session_only_body : ChatBody :=
  mkBody None (Some (lit "s1")) None None.

Definition blank_message_body : ChatBody :=
  mkBody (Some (lit "  ")) (Some (lit "s1")) None None.

(** ** The conversation store *)

Section StoreFacts.

Variable cfg : Config.

Lemma getConversationHistory_fst sid st :
  fst (getConversationHistory sid st) = history_of st sid.
Proof.
  unfold getConversationHistory, history_of.
  destruct (conversations st !! sid); reflexivity.
Qed.

Lemma getConversationHistory_history sid sid' st :
  history_of (snd (getConversationHistory sid st)) sid' = history_of st sid'.
Proof.
  unfold getConversationHistory, history_of.
  destruct (conversations st !! sid) eqn:E; simpl; [reflexivity|].
  destruct (decide (sid = sid')) as [->|Hne].
  - rewrite lookup_insert_eq, E. reflexivity.
  - rewrite lookup_insert_ne by assumption. reflexivity.
Qed.

Lemma getConversationHistory_fresh sid st :
  fresh (snd (getConversationHistory sid st)) = fresh st.
Proof.
  unfold getConversationHistory.
  destruct (conversations st !! sid); reflexivity.
Qed.

Lemma addToConversation_same sid m st :
  history_of (addToConversation cfg sid m st) sid
  = window cfg (history_of st sid ++ [m]).
Proof.
  unfold addToConversation.
  pose proof (getConversationHistory_fst sid st) as Hf.
  destruct (getConversationHistory sid st) as [history st1]; simpl in Hf.
  subst history. unfold history_of at 1. simpl.
  rewrite lookup_insert_eq. reflexivity.
Qed.

Lemma addToConversation_other sid sid' m st :
  sid ≠ sid' →
  history_of (addToConversation cfg sid m st) sid' = history_of st sid'.
Proof.
  intros Hne. unfold addToConversation.
  pose proof (getConversationHistory_history sid sid' st) as Hh.
  destruct (getConversationHistory sid st) as [history st1]; simpl in Hh.
  rewrite <- Hh. unfold history_of. simpl.
  rewrite lookup_insert_ne by assumption. reflexivity.
Qed.

Lemma addToConversation_fresh sid m st :
  fresh (addToConversation cfg sid m st) = fresh st.
Proof.
  unfold addToConversation.
  pose proof (getConversationHistory_fresh sid st) as Hf.
  destruct (getConversationHistory sid st) as [history st1]; simpl in *.
  assumption.
Qed.

Lemma window_last_n l :
  0 <= maxHistoryMessages (chat cfg) →
  window cfg l = last_n (Z.to_nat (maxHistoryMessages (chat cfg))) l.
Proof.
  intros HH. unfold window, last_n, splice0.
  destruct (Z.gtb_spec (Z.of_nat (length l)) (maxHistoryMessages (chat cfg)))
    as [Hgt|Hle].
  - f_equal. lia.
  - replace (length l - Z.to_nat _)%nat with 0%nat by lia. reflexivity.
Qed.

Lemma window_sublist l x : x ∈ window cfg l → x ∈ l.
Proof.
  unfold window, splice0. destruct (_ >? _); [|tauto].
  intros Hx. apply list_elem_of_lookup in Hx as [i Hi].
  rewrite lookup_drop in Hi. eapply list_elem_of_lookup_2; eassumption.
Qed.

Lemma last_n_length {A} n (l : list A) :
  length (last_n n l) = Nat.min n (length l).
Proof. unfold last_n. rewrite length_drop. lia. Qed.

Lemma last_n_snoc {A} n (l : list A) x :
  last_n n (last_n n l ++ [x]) = last_n n (l ++ [x]).
Proof.
  unfold last_n. rewrite !length_app, length_drop. simpl.
  destruct (decide (length l <= n)%nat) as [Hle|Hgt].
  - replace (length l - n)%nat with 0%nat by lia.
    rewrite drop_0, Nat.sub_0_r. reflexivity.
  - destruct n as [|n].
    + rewrite !drop_ge; [reflexivity | |];
        rewrite ?length_app, ?length_drop; simpl; lia.
    + rewrite (drop_app_le l) by lia.
      rewrite drop_app_le by (rewrite length_drop; lia).
      rewrite drop_drop. f_equal. f_equal. lia.
Qed.

End StoreFacts.

Section HistoryBound.

Variable cfg : Config.

Lemma append_all_snoc appends a st :
  append_all cfg (appends ++ [a]) st
  = addToConversation cfg (fst a) (snd a) (append_all cfg appends st).
Proof. unfold append_all. rewrite fold_left_app. reflexivity. Qed.

Lemma appended_to_snoc sid appends a :
  appended_to sid (appends ++ [a])
  = appended_to sid appends ++ (if decide (fst a = sid) then [snd a] else []).
Proof.
  unfold appended_to. rewrite List.filter_app, fmap_app. simpl.
  rewrite bool_decide_decide. destruct (decide (fst a = sid)); reflexivity.
Qed.

(** After any appends, a session holds the window of everything it had and
    everything it was sent since. *)
Lemma append_all_history appends sid st :
  0 <= maxHistoryMessages (chat cfg) →
  (length (history_of st sid) <= Z.to_nat (maxHistoryMessages (chat cfg)))%nat →
  history_of (append_all cfg appends st) sid
  = last_n (Z.to_nat (maxHistoryMessages (chat cfg)))
      (history_of st sid ++ appended_to sid appends).
Proof.
  intros HH Hlen. induction appends as [|a appends IH] using rev_ind.
  - simpl. unfold appended_to. simpl. rewrite app_nil_r.
    unfold last_n. replace (_ - _)%nat with 0%nat by lia. reflexivity.
  - rewrite append_all_snoc, appended_to_snoc.
    destruct (decide (fst a = sid)) as [Heq|Hne].
    + rewrite <- Heq at 1. rewrite addToConversation_same, Heq.
      rewrite window_last_n by assumption.
      rewrite IH, last_n_snoc, app_assoc. reflexivity.
    + rewrite addToConversation_other by assumption.
      rewrite app_nil_r. exact IH.
Qed.

(** C1, as the code has it.  When [maxHistoryMessages] is not negative,
    for every session and every sequence of [addToConversation] calls (to
    this and to other sessions), a session that starts empty holds at most
    [maxHistoryMessages] messages, and they are exactly the most recent
    [min n maxHistoryMessages] of the [n] messages appended to it, in their
    original order. *)
Theorem history_bound (appends : list (JsString * MsgObj))
    (sessionId : JsString) (st : ChatService) :
  0 <= maxHistoryMessages (chat cfg) →
  history_of st sessionId = [] →
  let history := history_of (append_all cfg appends st) sessionId in
  let sent := appended_to sessionId appends in
  Z.of_nat (length history) <= maxHistoryMessages (chat cfg)
  ∧ history
    = last_n (Nat.min (length sent) (Z.to_nat (maxHistoryMessages (chat cfg))))
        sent.
Proof.
  intros HH Hempty history sent.
  assert (Hh : history = last_n (Z.to_nat (maxHistoryMessages (chat cfg))) sent).
  { subst history sent. rewrite append_all_history; [|assumption|].
    - rewrite Hempty. reflexivity.
    - rewrite Hempty. simpl. lia. }
  split.
  - rewrite Hh, last_n_length. lia.
  - rewrite Hh. unfold last_n. f_equal. lia.
Qed.

End HistoryBound.

(** ** The request builder *)

Section RequestBuilder.

Variable cfg : Config.

Lemma createChatRequest_request um sid opts st :
  fst (createChatRequest cfg um sid opts st)
  = {| req_model := model (api cfg);
       messages :=
         new_system_message cfg opts st
         :: (if default true (opt_includeHistory opts)
             then history_of st sid else [])
         ++ [new_user_message um st];
       temperature := default (7 # 10)%Q (opt_temperature opts);
       max_tokens := default 500 (opt_maxTokens opts);
       top_p := 1;
       frequency_penalty := 0;
       presence_penalty := 0 |}.
Proof.
  unfold createChatRequest, new_system_message, new_user_message, alloc.
  destruct (default true (opt_includeHistory opts)).
  - pose proof (getConversationHistory_fst sid
                  (mkService (conversations st) (S (fresh st)))) as Hf.
    pose proof (getConversationHistory_fresh sid
                  (mkService (conversations st) (S (fresh st)))) as Hn.
    destruct (getConversationHistory sid _) as [history st']; simpl in *.
    subst history. rewrite Hn. reflexivity.
  - reflexivity.
Qed.

Lemma createChatRequest_state um sid opts st :
  ∃ st2,
    snd (createChatRequest cfg um sid opts st)
    = addToConversation cfg sid (new_user_message um st) st2
    ∧ fresh st2 = S (S (fresh st))
    ∧ ∀ sid', history_of st2 sid' = history_of st sid'.
Proof.
  unfold createChatRequest, new_user_message, alloc.
  destruct (default true (opt_includeHistory opts)).
  - pose proof (fun sid' => getConversationHistory_history sid sid'
                  (mkService (conversations st) (S (fresh st)))) as Hh.
    pose proof (getConversationHistory_fresh sid
                  (mkService (conversations st) (S (fresh st)))) as Hn.
    destruct (getConversationHistory sid _) as [history st']; simpl in *.
    eexists. split; [rewrite Hn; reflexivity|]. split; [simpl; lia|].
    intros sid'. apply Hh.
  - eexists. split; [reflexivity|]. split; reflexivity.
Qed.

Lemma createChatRequest_history um sid opts st :
  history_of (snd (createChatRequest cfg um sid opts st)) sid
  = window cfg (history_of st sid ++ [new_user_message um st]).
Proof.
  destruct (createChatRequest_state um sid opts st) as (st2 & -> & _ & Hh).
  rewrite addToConversation_same, Hh. reflexivity.
Qed.

Lemma createChatRequest_other um sid sid' opts st :
  sid ≠ sid' →
  history_of (snd (createChatRequest cfg um sid opts st)) sid'
  = history_of st sid'.
Proof.
  intros Hne.
  destruct (createChatRequest_state um sid opts st) as (st2 & -> & _ & Hh).
  rewrite addToConversation_other by assumption. apply Hh.
Qed.

Lemma createChatRequest_fresh um sid opts st :
  fresh (snd (createChatRequest cfg um sid opts st)) = S (S (fresh st)).
Proof.
  destruct (createChatRequest_state um sid opts st) as (st2 & -> & Hn & _).
  rewrite addToConversation_fresh. exact Hn.
Qed.

Lemma occurrences_absent m (l : list MsgObj) :
  (∀ x, x ∈ l → addr x ≠ addr m) → occurrences m l = 0%nat.
Proof.
  unfold occurrences. induction l as [|x l IH]; intros Hl; [reflexivity|].
  simpl. destruct (Nat.eqb_spec (addr x) (addr m)) as [Heq|_].
  - exfalso. apply (Hl x); [left | exact Heq].
  - apply IH. intros y Hy. apply Hl. right. exact Hy.
Qed.

Lemma occurrences_app m (l1 l2 : list MsgObj) :
  occurrences m (l1 ++ l2) = (occurrences m l1 + occurrences m l2)%nat.
Proof. unfold occurrences. rewrite List.filter_app, length_app. reflexivity. Qed.

(** C3. With [includeHistory] enabled (the default) the request carries the
    system message, then the history stored before the call, verbatim, then
    the new trimmed user message as its last element; the new user message
    object occurs exactly once in the sequence. *)
Theorem request_message_order (userMessage sessionId : JsString)
    (options : ChatOptions) (st : ChatService) :
  stamps_fresh st →
  default true (opt_includeHistory options) = true →
  let request := fst (createChatRequest cfg userMessage sessionId options st) in
  ∃ systemMsg userMsg,
    messages request = systemMsg :: history_of st sessionId ++ [userMsg]
    ∧ value systemMsg
      = buildSystemPrompt cfg (default (lit "travel") (opt_context options))
          (default no_userInfo (opt_userInfo options))
    ∧ value userMsg = message_literal "user" (JStr (trim userMessage))
    ∧ last (messages request) = Some userMsg
    ∧ occurrences userMsg (messages request) = 1%nat.
Proof.
  intros Hfresh Hincl request. subst request.
  rewrite createChatRequest_request, Hincl. simpl.
  exists (new_system_message cfg options st), (new_user_message userMessage st).
  split; [reflexivity|]. split; [reflexivity|]. split; [reflexivity|].
  split.
  - rewrite app_comm_cons, last_snoc. reflexivity.
  - change (?a :: ?l ++ ?r) with ([a] ++ l ++ r).
    rewrite !occurrences_app.
    rewrite (occurrences_absent _ (history_of st sessionId)).
    + unfold occurrences. simpl.
      rewrite Nat.eqb_refl.
      destruct (Nat.eqb_spec (fresh st) (S (fresh st))); [lia | reflexivity].
    + intros x Hx. apply Hfresh in Hx. simpl. lia.
Qed.

End RequestBuilder.

(** ** The facade *)

Section Facade.

Variable cfg : Config.

Lemma trim_nonempty (s : JsString) : trim s ≠ [] → s ≠ [].
Proof. intros Ht ->. apply Ht. reflexivity. Qed.

Lemma str_truthy_true (s : JsString) : s ≠ [] → str_truthy s = true.
Proof. destruct s; [congruence | reflexivity]. Qed.

Lemma window_last h u :
  1 <= maxHistoryMessages (chat cfg) → last (window cfg (h ++ [u])) = Some u.
Proof.
  intros HH. unfold window, splice0. rewrite length_app. simpl.
  destruct (_ >? _); [|apply last_snoc].
  rewrite drop_app_le by lia. apply last_snoc.
Qed.

(** Once both checks pass, the method builds the request, records the user
    turn and suspends on the single upstream call. *)
Lemma processMessage_accepted um sid opts st :
  trim um ≠ [] → sid ≠ [] →
  processMessage cfg (Some um) (Some sid) opts st
  = bind (sendChatRequest cfg (fst (createChatRequest cfg um sid opts st))
            (snd (createChatRequest cfg um sid opts st)))
      (processMessage_resume cfg sid).
Proof.
  intros Hum Hsid. unfold processMessage. simpl.
  rewrite (str_truthy_true um) by (apply trim_nonempty; assumption).
  rewrite (str_truthy_true (trim um)) by assumption.
  rewrite (str_truthy_true sid) by assumption. simpl.
  destruct (createChatRequest cfg um sid opts st). reflexivity.
Qed.

(** A failure result of the resumed method leaves the state as it found
    it. *)
Lemma processMessage_resume_failure net sid response st error details st' calls :
  run net (processMessage_resume cfg sid response st)
  = (Failure error details, st', calls) →
  st' = st.
Proof.
  unfold processMessage_resume. destruct response as [body|e d]; simpl.
  - destruct (nullish body); simpl; [congruence|].
    destruct (truthy (first_choice_message body)); simpl; [|congruence].
    destruct (getConversationHistory _ _). simpl. congruence.
  - congruence.
Qed.

Lemma run_bind_send {A} net payload st (f : GatewayResult → ChatService → Async A) :
  ∃ response call,
    run net (bind (sendChatRequest cfg payload st) f)
    = (let '(a, st', calls) := run net (f response st) in (a, st', call :: calls))
    ∧ post_body call = payload
    ∧ ∀ body, response = GwSuccess body →
              ∃ r, net call = Resolved r ∧ body = data r.
Proof.
  unfold sendChatRequest. simpl.
  match goal with |- context [net ?c] => set (call := c) end.
  destruct (net call) as [r|e] eqn:Hnet; simpl.
  - exists (GwSuccess (data r)), call. split; [reflexivity|].
    split; [reflexivity|]. intros body [= <-]. exists r. split; [exact Hnet | reflexivity].
  - destruct (err_response e) as [r|]; simpl.
    + eexists _, call. split; [reflexivity|]. split; [reflexivity|]. discriminate.
    + destruct (err_request e); simpl; eexists _, call;
        (split; [reflexivity|]; split; [reflexivity|]; discriminate).
Qed.

(** A rejected call, a [null] body and a reply without a first-choice
    message all end the turn with a failure, in the state the request
    builder left. *)
Lemma upstream_failure_is_reported net um sid opts st :
  trim um ≠ [] → sid ≠ [] →
  (∀ call, match net call with
           | Rejected _ => True
           | Resolved r =>
               nullish (data r) = true
               ∨ truthy (first_choice_message (data r)) = false
           end) →
  ∃ error details call,
    run net (processMessage cfg (Some um) (Some sid) opts st)
    = (Failure error details, snd (createChatRequest cfg um sid opts st), [call]).
Proof.
  intros Hum Hsid Hnet. rewrite processMessage_accepted by assumption.
  unfold sendChatRequest. simpl.
  match goal with |- context [net ?c] => set (call := c) end.
  specialize (Hnet call).
  destruct (net call) as [r|e]; simpl.
  - destruct Hnet as [Hnull|Hfalsy].
    + rewrite Hnull. simpl. eexists _, _, _. reflexivity.
    + destruct (nullish (data r)); simpl; [eexists _, _, _; reflexivity|].
      rewrite Hfalsy. simpl. eexists _, _, _. reflexivity.
  - destruct (err_response e); simpl; [eexists _, _, _; reflexivity|].
    destruct (err_request e); simpl; eexists _, _, _; reflexivity.
Qed.

(** A call that fails one of the two checks returns at once, with the
    state it was given. *)
Lemma processMessage_rejected um sid opts st :
  (present um && present (trim <$> um) && present sid)%bool = false →
  processMessage cfg um sid opts st
  = Return (Failure (if (present um && present (trim <$> um))%bool
                     then lit "Session ID is required"
                     else lit "Message cannot be empty") None) st.
Proof.
  intros Hinvalid. unfold processMessage.
  destruct (present um); simpl in *; [|reflexivity].
  destruct (present (trim <$> um)); simpl in *; [|reflexivity].
  rewrite Hinvalid. reflexivity.
Qed.

(** C6. When the user text is absent, empty or blank, or the session id is
    absent or empty, [processMessage] returns at once with a validation
    failure: it makes no upstream call and leaves the service state (hence
    every stored history) as it was. *)
Theorem validation_rejects_without_effect
    (userMessage sessionId : option JsString) (options : ChatOptions)
    (st : ChatService) :
  (present userMessage && present (trim <$> userMessage)
   && present sessionId)%bool = false →
  ∃ error,
    processMessage cfg userMessage sessionId options st
    = Return (Failure error None) st
    ∧ error = (if (present userMessage && present (trim <$> userMessage))%bool
               then lit "Session ID is required"
               else lit "Message cannot be empty")
    ∧ spec_errorKind error = Some ValidationError
    ∧ ∀ net,
        run net (processMessage cfg userMessage sessionId options st)
        = (Failure error None, st, [])
        ∧ ∀ s,
            fst (getConversationHistory s
                   (snd (fst (run net (processMessage cfg userMessage
                                         sessionId options st)))))
            = fst (getConversationHistory s st).
Proof.
  intros Hinvalid.
  rewrite (processMessage_rejected userMessage sessionId options st Hinvalid).
  eexists. split; [reflexivity|]. split; [reflexivity|].
  split.
  - destruct (present userMessage && present (trim <$> userMessage))%bool;
      vm_compute; reflexivity.
  - intros net. split; reflexivity.
Qed.

(** C2, as the code has it.  When [maxHistoryMessages] is at least 1 and a
    call passes validation and then fails (at the upstream call or on the
    shape of its reply), the state it leaves is the one the request builder
    produced: the history of the session ends with the user's trimmed
    message, and nothing was appended after it. *)
Theorem user_turn_persists_on_failure (net : PostCall → AxiosOutcome)
    (userMessage sessionId : JsString) (options : ChatOptions)
    (st st' : ChatService) (error : JsString) (details : option JsVal)
    (calls : list PostCall) :
  trim userMessage ≠ [] →
  sessionId ≠ [] →
  1 <= maxHistoryMessages (chat cfg) →
  run net (processMessage cfg (Some userMessage) (Some sessionId) options st)
  = (Failure error details, st', calls) →
  st' = snd (createChatRequest cfg userMessage sessionId options st)
  ∧ history_of st' sessionId
    = window cfg (history_of st sessionId ++ [new_user_message userMessage st])
  ∧ last (history_of st' sessionId) = Some (new_user_message userMessage st)
  ∧ value (new_user_message userMessage st)
    = message_literal "user" (JStr (trim userMessage)).
Proof.
  intros Hum Hsid HH Hrun.
  rewrite processMessage_accepted in Hrun by assumption.
  destruct (run_bind_send net
              (fst (createChatRequest cfg userMessage sessionId options st))
              (snd (createChatRequest cfg userMessage sessionId options st))
              (processMessage_resume cfg sessionId))
    as (response & call & Heq & _ & _).
  rewrite Heq in Hrun. clear Heq.
  destruct (run net (processMessage_resume cfg sessionId response _))
    as [[a s] cs] eqn:Hres.
  injection Hrun as -> -> _.
  apply processMessage_resume_failure in Hres. subst st'.
  split; [reflexivity|].
  rewrite createChatRequest_history.
  split; [reflexivity|]. split; [|reflexivity].
  apply window_last. assumption.
Qed.

End Facade.

Section SessionKeys.

Variable cfg : Config.

Lemma trimStart_blank (s : JsString) :
  forallb isWhiteSpace s = true → trimStart s = [].
Proof.
  induction s as [|c s IH]; [reflexivity|]. simpl.
  destruct (isWhiteSpace c); simpl; [exact IH | discriminate].
Qed.

Lemma trim_blank (s : JsString) : forallb isWhiteSpace s = true → trim s = [].
Proof. intros Hs. unfold trim. rewrite trimStart_blank by assumption. reflexivity. Qed.

Lemma processMessage_not_missing_session net payload sid st :
  fst (fst (run net (bind (sendChatRequest cfg payload st)
                       (processMessage_resume cfg sid))))
  ≠ Failure (lit "Session ID is required") None.
Proof.
  unfold sendChatRequest. simpl.
  match goal with |- context [net ?c] => destruct (net c) as [r|e] end; simpl.
  - destruct (nullish (data r)); simpl; [intros [= E]; vm_compute in E; discriminate|].
    destruct (truthy (first_choice_message (data r))); simpl;
      [|intros [= E]; vm_compute in E; discriminate].
    destruct (getConversationHistory _ _). simpl. discriminate.
  - destruct (err_response e) as [r|]; simpl; [discriminate|].
    destruct (err_request e); simpl; intros [= E]; vm_compute in E; discriminate.
Qed.

(** C10. A session id that is not empty but consists of white space only
    passes the session check, which does not trim: whatever the upstream
    answers, the call is not rejected as lacking a session; the method
    suspends on the upstream call after [addToConversation] was run for the
    user's message under that very key, so that the entry of the key is the
    old history with the user's turn pushed and the eviction step applied
    (the turn is its last element whenever [maxHistoryMessages] is at least
    1); other sessions, the empty key included, are left alone. *)
Theorem blank_session_id_accepted (userMessage sessionId : JsString)
    (options : ChatOptions) (st : ChatService) :
  sessionId ≠ [] →
  forallb isWhiteSpace sessionId = true →
  trim userMessage ≠ [] →
  let st1 := snd (createChatRequest cfg userMessage sessionId options st) in
  trim sessionId = []
  ∧ (∃ call k,
       processMessage cfg (Some userMessage) (Some sessionId) options st
       = Await st1 call k)
  ∧ (∃ st0,
       st1 = addToConversation cfg sessionId (new_user_message userMessage st) st0
       ∧ ∀ s, history_of st0 s = history_of st s)
  ∧ history_of st1 sessionId
    = window cfg (history_of st sessionId ++ [new_user_message userMessage st])
  ∧ (1 <= maxHistoryMessages (chat cfg) →
     last (history_of st1 sessionId) = Some (new_user_message userMessage st))
  ∧ (∀ other, other ≠ sessionId → history_of st1 other = history_of st other)
  ∧ ∀ net,
      fst (fst (run net (processMessage cfg (Some userMessage) (Some sessionId)
                           options st)))
      ≠ Failure (lit "Session ID is required") None.
Proof.
  intros Hsid Hblank Hum st1. subst st1.
  split; [apply trim_blank; assumption|].
  split.
  { rewrite processMessage_accepted by assumption.
    unfold sendChatRequest. simpl. eexists _, _. reflexivity. }
  split.
  { destruct (createChatRequest_state cfg userMessage sessionId options st)
      as (st0 & Hst & _ & Hh).
    exists st0. split; assumption. }
  split; [apply createChatRequest_history|].
  split.
  { intros HH. rewrite createChatRequest_history. apply window_last.
    assumption. }
  split.
  { intros other Hne. apply createChatRequest_other. congruence. }
  intros net. rewrite processMessage_accepted by assumption.
  apply processMessage_not_missing_session.
Qed.

End SessionKeys.

(** ** The completion gateway *)

Section Gateway.

Variable cfg : Config.

Lemma kind_api_error (rest : JsString) :
  spec_errorKind (lit "API Error: " ++ rest) = Some UpstreamProtocolError.
Proof. vm_compute. reflexivity. Qed.



(** The classification by the way the call settled: [sendChatRequest]
    posts exactly once and leaves the service state alone.  Its result is a
    failure of the upstream-protocol class exactly when the call was
    rejected with a response attached, and it then carries the status and
    the body of that response; it is a failure of the transport class
    exactly when the call was rejected with no response; a resolved call
    yields the success result with the reply's body. *)
Lemma gateway_classification (net : PostCall → AxiosOutcome)
    (requestPayload : ChatRequest) (st : ChatService) :
  ∃ call,
    run net (sendChatRequest cfg requestPayload st)
    = (fst (fst (run net (sendChatRequest cfg requestPayload st))), st, [call])
    ∧ post_body call = requestPayload
    ∧ let result := fst (fst (run net (sendChatRequest cfg requestPayload st))) in
      ((∃ error details,
           result = GwFailure error details
           ∧ spec_errorKind error = Some UpstreamProtocolError)
       ↔ (∃ e response, net call = Rejected e ∧ err_response e = Some response))
      ∧ (∀ e response,
           net call = Rejected e → err_response e = Some response →
           result
           = GwFailure (lit "API Error: " ++ int_to_str (status response)
                        ++ lit " - " ++ statusText response)
               (Some (data response)))
      ∧ ((∃ error details,
             result = GwFailure error details
             ∧ spec_errorKind error = Some TransportError)
         ↔ (∃ e, net call = Rejected e ∧ err_response e = None))
      ∧ (∀ response, net call = Resolved response →
                     result = GwSuccess (data response)).
Proof.
  unfold sendChatRequest. simpl.
  match goal with |- context [net ?c] => set (call := c) end.
  exists call.
  destruct (net call) as [r|e] eqn:Hnet; simpl.
  - split; [reflexivity|]. split; [reflexivity|].
    repeat split.
    + intros (error & details & Hres & _). discriminate.
    + intros (e & response & He & _). discriminate.
    + intros e response He. discriminate.
    + intros (error & details & Hres & _). discriminate.
    + intros (e & He & _). discriminate.
    + intros response [= ->]. reflexivity.
  - destruct (err_response e) as [r|] eqn:Hresp; simpl.
    + split; [reflexivity|]. split; [reflexivity|].
      repeat split.
      * intros _. exists e, r. split; [reflexivity | assumption].
      * intros _. eexists _, _. split; [reflexivity | apply kind_api_error].
      * intros e' response [= <-] Hr. rewrite Hresp in Hr.
        injection Hr as <-. reflexivity.
      * intros (error & details & [= <- <-] & Hkind).
        vm_compute in Hkind. discriminate.
      * intros (e' & [= <-] & Hnone). congruence.
      * intros response. discriminate.
    + destruct (err_request e); simpl;
        (split; [reflexivity|]; split; [reflexivity|]; repeat split;
         [ intros (error' & details & [= <- <-] & Hk);
           vm_compute in Hk; discriminate
         | intros (e' & response & [= <-] & Hr); congruence
         | intros e' response [= <-] Hr; congruence
         | intros _; exists e; split; [reflexivity | assumption]
         | intros _; eexists _, _; split; [reflexivity | vm_compute; reflexivity]
         | intros response; discriminate ]).
Qed.


End Gateway.

(** ** Invariants of the stored histories *)

Section Invariants.

Variable cfg : Config.

Lemma all_stored_mono (P Q : MsgObj → Prop) st :
  (∀ m, P m → Q m) → all_stored P st → all_stored Q st.
Proof. intros HPQ HP sid m Hm. apply HPQ. exact (HP sid m Hm). Qed.

Lemma all_stored_same_histories (P : MsgObj → Prop) st st' :
  (∀ sid, history_of st' sid = history_of st sid) →
  all_stored P st → all_stored P st'.
Proof. intros Hh HP sid m Hm. rewrite Hh in Hm. exact (HP sid m Hm). Qed.

Lemma all_stored_new P : all_stored P new_service.
Proof.
  intros sid m Hm. unfold history_of, new_service in Hm. simpl in Hm.
  rewrite lookup_empty in Hm. simpl in Hm. inversion Hm.
Qed.

Lemma all_stored_get P sid st :
  all_stored P st → all_stored P (snd (getConversationHistory sid st)).
Proof.
  apply all_stored_same_histories. intros sid'.
  apply getConversationHistory_history.
Qed.

Lemma all_stored_add P sid m st :
  all_stored P st → P m → all_stored P (addToConversation cfg sid m st).
Proof.
  intros HP Hm sid' x Hx.
  destruct (decide (sid = sid')) as [<-|Hne].
  - rewrite addToConversation_same in Hx. apply window_sublist in Hx.
    apply elem_of_app in Hx as [Hx|Hx].
    + exact (HP sid x Hx).
    + apply list_elem_of_singleton in Hx. subst x. exact Hm.
  - rewrite addToConversation_other in Hx by assumption. exact (HP sid' x Hx).
Qed.

Lemma all_stored_clear P sid st :
  all_stored P st → all_stored P (clearConversation sid st).
Proof.
  intros HP sid' x Hx. unfold clearConversation, history_of in Hx. simpl in Hx.
  destruct (decide (sid = sid')) as [<-|Hne].
  - rewrite lookup_delete_eq in Hx. simpl in Hx. inversion Hx.
  - rewrite lookup_delete_ne in Hx by assumption. exact (HP sid' x Hx).
Qed.

Lemma all_stored_stats P sid st :
  all_stored P st → all_stored P (snd (getConversationStats sid st)).
Proof.
  intros HP. unfold getConversationStats.
  pose proof (all_stored_get P sid st HP) as Hg.
  destruct (getConversationHistory sid st). exact Hg.
Qed.

Lemma all_stored_createChatRequest P um sid opts st :
  all_stored P st → P (new_user_message um st) →
  all_stored P (snd (createChatRequest cfg um sid opts st)).
Proof.
  intros HP Hu.
  destruct (createChatRequest_state cfg um sid opts st) as (st2 & -> & _ & Hh).
  apply all_stored_add; [|exact Hu].
  eapply all_stored_same_histories; eassumption.
Qed.

Lemma resume_state net sid response st :
  snd (fst (run net (processMessage_resume cfg sid response st))) = st
  ∨ ∃ body,
      response = GwSuccess body
      ∧ snd (fst (run net (processMessage_resume cfg sid response st)))
        = snd (getConversationHistory sid
                 (addToConversation cfg sid
                    (mkMsg (fresh st) (first_choice_message body))
                    (mkService (conversations st) (S (fresh st))))).
Proof.
  unfold processMessage_resume. destruct response as [body|e d]; simpl.
  - destruct (nullish body); simpl; [left; reflexivity|].
    destruct (truthy (first_choice_message body)); simpl; [|left; reflexivity].
    right. exists body. split; [reflexivity|].
    destruct (getConversationHistory _ _). reflexivity.
  - left. reflexivity.
Qed.

Lemma all_stored_resume P net sid response st :
  all_stored P st →
  (∀ body, response = GwSuccess body →
           P (mkMsg (fresh st) (first_choice_message body))) →
  all_stored P (snd (fst (run net (processMessage_resume cfg sid response st)))).
Proof.
  intros HP Hreply.
  destruct (resume_state net sid response st) as [->|(body & Hb & ->)];
    [exact HP|].
  apply all_stored_get, all_stored_add; [|apply Hreply; exact Hb].
  eapply all_stored_same_histories; [|exact HP]. reflexivity.
Qed.

(** What an operation does to the stored histories, for a property that
    holds of the user message it may create and of the reply it may
    store. *)
Lemma all_stored_processMessage P um sid opts reply st :
  all_stored P st →
  (∀ text, um = Some text → P (new_user_message text st)) →
  (∀ r, reply = Resolved r →
        P (mkMsg (S (S (fresh st))) (first_choice_message (data r)))) →
  all_stored P
    (snd (fst (run (fun _ => reply) (processMessage cfg um sid opts st)))).
Proof.
  intros HP Huser Hreply.
  destruct (present um && present (trim <$> um) && present sid)%bool eqn:Hvalid.
  - destruct um as [text|]; [|discriminate].
    destruct sid as [key|]; [|rewrite andb_false_r in Hvalid; discriminate].
    simpl in Hvalid. apply andb_prop in Hvalid as [Hvalid Hkey].
    apply andb_prop in Hvalid as [_ Htext].
    rewrite processMessage_accepted;
      [|destruct (trim text); [discriminate|congruence]
       |destruct key; [discriminate|congruence]].
    destruct (run_bind_send cfg (fun _ => reply)
                (fst (createChatRequest cfg text key opts st))
                (snd (createChatRequest cfg text key opts st))
                (processMessage_resume cfg key))
      as (response & call & -> & _ & Hbody).
    pose proof (all_stored_resume P (fun _ => reply) key response
                  (snd (createChatRequest cfg text key opts st))) as Hres.
    destruct (run _ (processMessage_resume cfg key response _)) as [[a s] cs].
    simpl in *. apply Hres.
    + apply all_stored_createChatRequest; [exact HP | apply Huser; reflexivity].
    + intros body Hb. destruct (Hbody body Hb) as (r & Hr & ->).
      rewrite createChatRequest_fresh. apply Hreply. exact Hr.
  - rewrite (processMessage_rejected cfg um sid opts st Hvalid). exact HP.
Qed.

Lemma user_message_not_system text st : ¬ is_system (new_user_message text st).
Proof. unfold is_system, role_of. vm_compute. discriminate. Qed.

Lemma no_system_exec_op op st :
  reply_not_system op →
  all_stored (fun m => ¬ is_system m) st →
  all_stored (fun m => ¬ is_system m) (exec_op cfg st op).
Proof.
  intros Hreply HP. destruct op as [um sid opts reply|sid|sid|sid]; simpl.
  - apply all_stored_processMessage; [exact HP | |].
    + intros text _. apply user_message_not_system.
    + intros r ->. exact Hreply.
  - apply all_stored_clear. exact HP.
  - apply all_stored_get. exact HP.
  - apply all_stored_stats. exact HP.
Qed.

Lemma no_system_exec ops st :
  Forall reply_not_system ops →
  all_stored (fun m => ¬ is_system m) st →
  all_stored (fun m => ¬ is_system m) (exec cfg ops st).
Proof.
  intros Hops. revert st. induction Hops as [|op ops Hop _ IH]; intros st HP.
  - exact HP.
  - simpl. apply IH. apply no_system_exec_op; assumption.
Qed.

(** C7, as the code has it.  Over every sequence of [processMessage],
    [clearConversation], history and statistics calls on a new service,
    [getConversationHistory] returns no message whose role is [system],
    provided no upstream reply labels its first-choice message with that
    role: the system message the service builds is never stored, and a
    reply is stored with the role the upstream gave it. *)
Theorem no_system_message_stored (ops : list Operation) :
  Forall reply_not_system ops → history_never_system cfg ops.
Proof.
  intros Hops sid. rewrite getConversationHistory_fst.
  apply List.Forall_forall. intros m Hm.
  apply (no_system_exec ops new_service Hops (all_stored_new _) sid m).
  apply list_elem_of_In. exact Hm.
Qed.

End Invariants.

Section Stamps.

Variable cfg : Config.

Lemma stamps_fresh_weaken st st' :
  (∀ sid, history_of st' sid = history_of st sid) →
  (fresh st <= fresh st')%nat →
  stamps_fresh st → stamps_fresh st'.
Proof.
  intros Hh Hn HP. unfold stamps_fresh.
  eapply all_stored_same_histories; [exact Hh|].
  eapply all_stored_mono; [|exact HP]. simpl. intros m Hm. lia.
Qed.

Lemma stamps_fresh_createChatRequest um sid opts st :
  stamps_fresh st → stamps_fresh (snd (createChatRequest cfg um sid opts st)).
Proof.
  intros HP. unfold stamps_fresh. rewrite createChatRequest_fresh.
  apply all_stored_createChatRequest; [|simpl; lia].
  eapply all_stored_mono; [|exact HP]. simpl. intros m Hm. lia.
Qed.

Lemma stamps_fresh_resume net sid response st :
  stamps_fresh st →
  stamps_fresh (snd (fst (run net (processMessage_resume cfg sid response st)))).
Proof.
  intros HP.
  destruct (resume_state cfg net sid response st) as [->|(body & _ & ->)];
    [exact HP|].
  unfold stamps_fresh.
  rewrite getConversationHistory_fresh, addToConversation_fresh. simpl.
  apply all_stored_get, all_stored_add; [|simpl; lia].
  eapply all_stored_same_histories with (st := st); [reflexivity|].
  eapply all_stored_mono; [|exact HP]. simpl. intros m Hm. lia.
Qed.

Lemma stamps_fresh_processMessage net um sid opts st :
  stamps_fresh st →
  stamps_fresh (snd (fst (run net (processMessage cfg um sid opts st)))).
Proof.
  intros HP.
  destruct (present um && present (trim <$> um) && present sid)%bool eqn:Hvalid.
  - destruct um as [text|]; [|discriminate].
    destruct sid as [key|]; [|rewrite andb_false_r in Hvalid; discriminate].
    simpl in Hvalid. apply andb_prop in Hvalid as [Hvalid Hkey].
    apply andb_prop in Hvalid as [_ Htext].
    rewrite processMessage_accepted;
      [|destruct (trim text); [discriminate|congruence]
       |destruct key; [discriminate|congruence]].
    destruct (run_bind_send cfg net
                (fst (createChatRequest cfg text key opts st))
                (snd (createChatRequest cfg text key opts st))
                (processMessage_resume cfg key))
      as (response & call & -> & _ & _).
    pose proof (stamps_fresh_resume net key response
                  (snd (createChatRequest cfg text key opts st))
                  (stamps_fresh_createChatRequest text key opts st HP)) as Hres.
    destruct (run _ (processMessage_resume cfg key response _)) as [[a s] cs].
    exact Hres.
  - rewrite (processMessage_rejected cfg um sid opts st Hvalid). exact HP.
Qed.

Lemma stamps_fresh_exec_op op st :
  stamps_fresh st → stamps_fresh (exec_op cfg st op).
Proof.
  intros HP. destruct op as [um sid opts reply|sid|sid|sid]; simpl.
  - apply stamps_fresh_processMessage. exact HP.
  - apply all_stored_clear. exact HP.
  - eapply stamps_fresh_weaken; [| |exact HP].
    + intros sid'. apply getConversationHistory_history.
    + rewrite getConversationHistory_fresh. lia.
  - unfold getConversationStats.
    pose proof (fun sid' => getConversationHistory_history sid sid' st) as Hh.
    pose proof (getConversationHistory_fresh sid st) as Hn.
    destruct (getConversationHistory sid st) as [h st1]. simpl in *.
    eapply stamps_fresh_weaken; [| |exact HP].
    + exact Hh.
    + lia.
Qed.

(** Every state the service reaches from a new instance has fresh stamps. *)
Lemma stamps_fresh_exec ops : stamps_fresh (exec cfg ops new_service).
Proof.
  assert (H : ∀ st, stamps_fresh st → stamps_fresh (exec cfg ops st)).
  { induction ops as [|op ops IH]; intros st HP; [exact HP|].
    simpl. apply IH, stamps_fresh_exec_op. exact HP. }
  apply H. apply all_stored_new.
Qed.

End Stamps.

(** ** The prompt composer and the sampling parameters *)

Section Composer.

Variable cfg : Config.

Lemma systemPrompts_get_unknown context :
  context ∉ template_names → context ∉ object_prototype_keys →
  systemPrompts_get cfg context = NoProperty.
Proof.
  intros Hname Hproto. unfold systemPrompts_get.
  repeat (destruct (decide _) as [->|_];
          [exfalso; apply Hname; unfold template_names; simpl; set_solver|]).
  rewrite bool_decide_eq_false_2 by assumption. reflexivity.
Qed.

Lemma systemPrompts_get_general :
  systemPrompts_get cfg (lit "general")
  = OwnTemplate (general (systemPrompts cfg)).
Proof. reflexivity. Qed.

(** A prompt that starts from a template's text is that text followed by
    the personalization clauses. *)
Lemma buildSystemPrompt_from_text context userInfo text :
  match systemPrompts_get cfg context with
  | OwnTemplate t => tpl_content t
  | InheritedMember => text
  | NoProperty => tpl_content (general (systemPrompts cfg))
  end = text →
  systemPrompts_get cfg context ≠ InheritedMember →
  buildSystemPrompt cfg context userInfo
  = message_literal "system" (JStr (text ++ personalization userInfo)).
Proof.
  intros Htext Hown. unfold buildSystemPrompt, personalization, append_text.
  destruct (systemPrompts_get cfg context) as [t| |]; [|congruence|];
    subst text;
    destruct (present (name userInfo));
    destruct (present (location userInfo));
    destruct (present (preferredLanguage userInfo)
              && negb (bool_decide (preferredLanguage userInfo = Some (lit "en"))))%bool;
    cbn [default from_option id]; rewrite ?app_nil_l, ?app_nil_r, <- ?app_assoc;
    reflexivity.
Qed.

(** X11. The fallback where it works: a tag that names neither a template
    nor a member of [Object.prototype] composes the prompt of [general],
    that is the text of the [general] template followed by the
    personalization clauses in their fixed order. *)
Lemma context_fallback context userInfo :
  context ∉ template_names → context ∉ object_prototype_keys →
  buildSystemPrompt cfg context userInfo
  = buildSystemPrompt cfg (lit "general") userInfo
  ∧ buildSystemPrompt cfg context userInfo
    = message_literal "system"
        (JStr (tpl_content (general (systemPrompts cfg))
               ++ personalization userInfo)).
Proof.
  intros Hname Hproto.
  pose proof (systemPrompts_get_unknown context Hname Hproto) as Hget.
  assert (Hctx : buildSystemPrompt cfg context userInfo
                 = message_literal "system"
                     (JStr (tpl_content (general (systemPrompts cfg))
                            ++ personalization userInfo))).
  { apply buildSystemPrompt_from_text; rewrite Hget; [reflexivity|discriminate]. }
  split; [|exact Hctx].
  rewrite Hctx. symmetry.
  apply buildSystemPrompt_from_text; rewrite systemPrompts_get_general;
    [reflexivity|discriminate].
Qed.

(** The sampling parameters of a request come from the options, with the
    literals 0.7 and 500 of the method as defaults. *)
Lemma createChatRequest_sampling um sid opts st :
  temperature (fst (createChatRequest cfg um sid opts st))
  = default (7 # 10)%Q (opt_temperature opts)
  ∧ max_tokens (fst (createChatRequest cfg um sid opts st))
    = default 500 (opt_maxTokens opts).
Proof. rewrite createChatRequest_request. split; reflexivity. Qed.

Lemma caller_sampling_takes_precedence um sid opts st t n :
  opt_temperature opts = Some t → opt_maxTokens opts = Some n →
  temperature (fst (createChatRequest cfg um sid opts st)) = t
  ∧ max_tokens (fst (createChatRequest cfg um sid opts st)) = n.
Proof.
  intros Ht Hn. destruct (createChatRequest_sampling um sid opts st) as [-> ->].
  rewrite Ht, Hn. split; reflexivity.
Qed.

(** The timeout of the upstream call is the literal of the method, whatever
    the configuration holds. *)
Lemma sendChatRequest_timeout net payload st :
  (post_timeout <$> snd (run net (sendChatRequest cfg payload st))) = [30000].
Proof.
  unfold sendChatRequest. simpl.
  match goal with |- context [net ?c] => destruct (net c) as [r|e] end; simpl;
    [reflexivity|].
  destruct (err_response e); simpl; [reflexivity|].
  destruct (err_request e); reflexivity.
Qed.

End Composer.

(** ** Concrete runs *)

(** The sliding-window scenario: with a window of two, the first turn
    leaves the pair [hi]/[hello]; the second request carries the system
    message, that pair and the new user message, and the second turn leaves
    the pair [bye]/[goodbye]. *)
Example scenario_first_turn :
  history_of (exec small_window_cfg [first_turn] new_service) (lit "s1")
  = [stored 1 "user" "hi"; stored 2 "assistant" "hello"].
Proof. vm_compute. reflexivity. Qed.

Example scenario_second_request :
  (fun call => role_of <$> messages (post_body call)) <$> snd second_turn
  = [[JStr (lit "system"); JStr (lit "user"); JStr (lit "assistant");
      JStr (lit "user")]]
  ∧ (fun call => tail (messages (post_body call))) <$> snd second_turn
    = [[stored 1 "user" "hi"; stored 2 "assistant" "hello";
        stored 4 "user" "bye"]].
Proof. split; vm_compute; reflexivity. Qed.

Example scenario_second_turn :
  history_of (snd (fst second_turn)) (lit "s1")
  = [stored 4 "user" "bye"; stored 5 "assistant" "goodbye"].
Proof. vm_compute. reflexivity. Qed.

(** C4. The request built for the [booking] context without overrides
    carries the literals 0.7 and 500 of [createChatRequest], not the 0.6
    and 400 of the [booking] template: the template's sampling parameters
    are never read. *)
Theorem template_sampling_not_used :
  let request :=
    fst (createChatRequest sample_cfg (lit "hi") (lit "s1") booking_options
           new_service) in
  let template := booking (systemPrompts sample_cfg) in
  systemPrompts_get sample_cfg (lit "booking") = OwnTemplate template
  ∧ tpl_temperature template = (6 # 10)%Q
  ∧ tpl_maxTokens template = 400
  ∧ temperature request = (7 # 10)%Q
  ∧ max_tokens request = 500
  ∧ ¬ (temperature request == tpl_temperature template)%Q
  ∧ max_tokens request ≠ tpl_maxTokens template.
Proof.
  cbv zeta. rewrite createChatRequest_request. simpl.
  repeat split; try reflexivity.
  - intros E. vm_compute in E. discriminate.
  - discriminate.
Qed.

(** C5. The upstream call is made with a timeout of 30000 ms whatever the
    configuration says: with the deployed default of 120000 ms, and with
    [CHAT_API_TIMEOUT=5000] on the README configuration. *)
Theorem configured_timeout_not_used :
  timeout (api deployed_cfg) = 120000
  ∧ (post_timeout
       <$> snd (run (fun _ => no_reply)
                  (sendChatRequest deployed_cfg empty_request new_service)))
    = [30000]
  ∧ timeout (api short_timeout_cfg) = 5000
  ∧ (post_timeout
       <$> snd (run (fun _ => no_reply)
                  (sendChatRequest short_timeout_cfg empty_request new_service)))
    = [30000].
Proof. repeat split; reflexivity. Qed.

(** C9. The tag [toString] names no template, yet the lookup finds the
    member inherited from [Object.prototype] and the fallback to [general]
    is skipped: the prompt has no content ([undefined]), or the text
    [undefined] followed by the clauses. *)
Theorem inherited_tag_skips_fallback :
  (lit "toString" ∉ template_names)
  ∧ buildSystemPrompt sample_cfg (lit "toString") no_userInfo
    = message_literal "system" JUndefined
  ∧ buildSystemPrompt sample_cfg (lit "toString") user_al
    = message_literal "system"
        (JStr (lit ("undefined" ++ nl ++ nl ++ "The customer's name is Al.")))
  ∧ buildSystemPrompt sample_cfg (lit "toString") no_userInfo
    ≠ buildSystemPrompt sample_cfg (lit "general") no_userInfo
  ∧ buildSystemPrompt sample_cfg (lit "toString") user_al
    ≠ buildSystemPrompt sample_cfg (lit "general") user_al.
Proof.
  split.
  { intros Hin. apply list_elem_of_In in Hin. vm_compute in Hin.
    repeat (destruct Hin as [Hin|Hin]; [discriminate|]). exact Hin. }
  split; [vm_compute; reflexivity|].
  split; [vm_compute; reflexivity|].
  split; intros E; vm_compute in E; discriminate.
Qed.

(** C7, as stated, fails: the reply of the upstream is stored with the role
    it carries, here [system]. *)
Lemma system_reply_is_stored : ¬ history_never_system sample_cfg system_reply_ops.
Proof.
  intros Hnever. specialize (Hnever (lit "s1")).
  apply List.Forall_forall with (x := stored 2 "system" "obey") in Hnever.
  - apply Hnever. vm_compute. reflexivity.
  - vm_compute. right. left. reflexivity.
Qed.

(** C1, as stated, fails: a negative [CHAT_MAX_HISTORY] is taken as the
    maximum, every append then empties the session, and the stored length
    0 exceeds the maximum -1. *)
Lemma negative_maximum_is_exceeded :
  maxHistoryMessages (chat negative_window_cfg) = -1
  ∧ history_of (append_all negative_window_cfg sample_appends new_service)
      (lit "s1") = []
  ∧ ¬ (Z.of_nat (length (history_of (append_all negative_window_cfg
                                       sample_appends new_service) (lit "s1")))
       <= maxHistoryMessages (chat negative_window_cfg)).
Proof.
  split; [reflexivity|]. split; [vm_compute; reflexivity|].
  intros Hle. vm_compute in Hle. apply Hle. reflexivity.
Qed.

(** C2, as stated, fails: with the maximum -1 a call that passes validation
    and whose upstream call times out returns a failure and leaves the
    history of the session empty: the user's message is not its most
    recent entry. *)
Lemma failed_turn_is_evicted :
  let outcome :=
    run (fun _ => no_reply)
      (processMessage negative_window_cfg (Some (lit " hi ")) (Some (lit "s1"))
         no_options new_service) in
  fst (fst outcome)
  = Failure (lit "Network error: Unable to reach chat API service") None
  ∧ history_of (snd (fst outcome)) (lit "s1") = []
  ∧ last (history_of (snd (fst outcome)) (lit "s1"))
    ≠ Some (new_user_message (lit " hi ") new_service).
Proof.
  cbv zeta. split; [vm_compute; reflexivity|].
  split; [vm_compute; reflexivity|].
  intros E. vm_compute in E. discriminate.
Qed.

(** The text of an upstream-protocol failure, on a 404. *)
Example api_error_text :
  int_to_str 404 = lit "404"
  ∧ fst (fst (run (fun _ => axios_post
                              (ResponseReceived
                                 (mkResponse 404 (lit "Not Found") JNull)))
                (sendChatRequest sample_cfg empty_request new_service)))
    = GwFailure (lit "API Error: 404 - Not Found") (Some JNull).
Proof. split; vm_compute; reflexivity. Qed.

Lemma history_bound_witness :
  0 <= maxHistoryMessages (chat small_window_cfg)
  ∧ history_of new_service (lit "s1") = []
  ∧ let history :=
      history_of (append_all small_window_cfg sample_appends new_service)
        (lit "s1") in
    let sent := appended_to (lit "s1") sample_appends in
    Z.of_nat (length history) <= maxHistoryMessages (chat small_window_cfg)
    ∧ history
      = last_n (Nat.min (length sent)
                  (Z.to_nat (maxHistoryMessages (chat small_window_cfg))))
          sent.
Proof.
  split; [vm_compute; discriminate|]. split; [reflexivity|].
  apply (history_bound small_window_cfg sample_appends (lit "s1") new_service);
    [vm_compute; discriminate | reflexivity].
Defined.

Lemma user_turn_persists_on_failure_witness :
  trim (lit " hi ") ≠ []
  ∧ lit "s1" ≠ []
  ∧ 1 <= maxHistoryMessages (chat sample_cfg)
  ∧ failed_turn
    = (Failure (lit "Network error: Unable to reach chat API service") None,
       snd (fst failed_turn), snd failed_turn)
  ∧ snd (fst failed_turn)
    = snd (createChatRequest sample_cfg (lit " hi ") (lit "s1") no_options
             new_service)
  ∧ history_of (snd (fst failed_turn)) (lit "s1")
    = window sample_cfg
        (history_of new_service (lit "s1")
         ++ [new_user_message (lit " hi ") new_service])
  ∧ last (history_of (snd (fst failed_turn)) (lit "s1"))
    = Some (new_user_message (lit " hi ") new_service)
  ∧ value (new_user_message (lit " hi ") new_service)
    = message_literal "user" (JStr (trim (lit " hi "))).
Proof.
  split; [vm_compute; discriminate|]. split; [vm_compute; discriminate|].
  split; [vm_compute; discriminate|]. split; [vm_compute; reflexivity|].
  apply (user_turn_persists_on_failure sample_cfg (fun _ => no_reply)
           (lit " hi ") (lit "s1") no_options new_service
           (snd (fst failed_turn))
           (lit "Network error: Unable to reach chat API service") None
           (snd failed_turn));
    [vm_compute; discriminate | vm_compute; discriminate
    | vm_compute; discriminate | vm_compute; reflexivity].
Defined.

Lemma request_message_order_witness :
  stamps_fresh after_one_turn
  ∧ default true (opt_includeHistory no_options) = true
  ∧ let request :=
      fst (createChatRequest sample_cfg (lit " bye ") (lit "s1") no_options
             after_one_turn) in
    ∃ systemMsg userMsg,
      messages request
      = systemMsg :: history_of after_one_turn (lit "s1") ++ [userMsg]
      ∧ value systemMsg
        = buildSystemPrompt sample_cfg
            (default (lit "travel") (opt_context no_options))
            (default no_userInfo (opt_userInfo no_options))
      ∧ value userMsg = message_literal "user" (JStr (trim (lit " bye ")))
      ∧ last (messages request) = Some userMsg
      ∧ occurrences userMsg (messages request) = 1%nat.
Proof.
  split; [apply stamps_fresh_exec|]. split; [reflexivity|].
  apply (request_message_order sample_cfg (lit " bye ") (lit "s1") no_options
           after_one_turn);
    [apply stamps_fresh_exec | reflexivity].
Defined.

Lemma validation_rejects_without_effect_witness :
  (present (Some (lit "   ")) && present (trim <$> Some (lit "   "))
   && present (Some (lit "s1")))%bool = false
  ∧ ∃ error,
      processMessage sample_cfg (Some (lit "   ")) (Some (lit "s1")) no_options
        after_one_turn
      = Return (Failure error None) after_one_turn
      ∧ error = (if (present (Some (lit "   "))
                     && present (trim <$> Some (lit "   ")))%bool
                 then lit "Session ID is required"
                 else lit "Message cannot be empty")
      ∧ spec_errorKind error = Some ValidationError
      ∧ ∀ net,
          run net (processMessage sample_cfg (Some (lit "   "))
                     (Some (lit "s1")) no_options after_one_turn)
          = (Failure error None, after_one_turn, [])
          ∧ ∀ s,
              fst (getConversationHistory s
                     (snd (fst (run net (processMessage sample_cfg
                                           (Some (lit "   ")) (Some (lit "s1"))
                                           no_options after_one_turn)))))
              = fst (getConversationHistory s after_one_turn).
Proof.
  split; [vm_compute; reflexivity|].
  apply (validation_rejects_without_effect sample_cfg (Some (lit "   "))
           (Some (lit "s1")) no_options after_one_turn).
  vm_compute. reflexivity.
Defined.

Lemma no_system_message_stored_witness :
  Forall reply_not_system sample_ops ∧ history_never_system sample_cfg sample_ops.
Proof.
  assert (Hops : Forall reply_not_system sample_ops).
  { unfold sample_ops.
    repeat (apply List.Forall_cons; [try exact I; vm_compute; discriminate|]).
    apply List.Forall_nil. }
  split; [exact Hops|].
  apply (no_system_message_stored sample_cfg sample_ops Hops).
Defined.

Lemma blank_session_id_accepted_witness :
  lit " " ≠ []
  ∧ forallb isWhiteSpace (lit " ") = true
  ∧ trim (lit "hi") ≠ []
  ∧ let st1 :=
      snd (createChatRequest negative_window_cfg (lit "hi") (lit " ")
             no_options new_service) in
    trim (lit " ") = []
    ∧ (∃ call k,
         processMessage negative_window_cfg (Some (lit "hi")) (Some (lit " "))
           no_options new_service
         = Await st1 call k)
    ∧ (∃ st0,
         st1 = addToConversation negative_window_cfg (lit " ")
                 (new_user_message (lit "hi") new_service) st0
         ∧ ∀ s, history_of st0 s = history_of new_service s)
    ∧ history_of st1 (lit " ")
      = window negative_window_cfg
          (history_of new_service (lit " ")
           ++ [new_user_message (lit "hi") new_service])
    ∧ (1 <= maxHistoryMessages (chat negative_window_cfg) →
       last (history_of st1 (lit " "))
       = Some (new_user_message (lit "hi") new_service))
    ∧ (∀ other, other ≠ lit " " →
                history_of st1 other = history_of new_service other)
    ∧ ∀ net,
        fst (fst (run net (processMessage negative_window_cfg (Some (lit "hi"))
                             (Some (lit " ")) no_options new_service)))
        ≠ Failure (lit "Session ID is required") None.
Proof.
  split; [vm_compute; discriminate|]. split; [vm_compute; reflexivity|].
  split; [vm_compute; discriminate|].
  apply (blank_session_id_accepted negative_window_cfg (lit "hi") (lit " ")
           no_options new_service);
    [vm_compute; discriminate | vm_compute; reflexivity
    | vm_compute; discriminate].
Defined.

(** ** More on the conversation store *)

Section StoreOperations.

Variable cfg : Config.

Lemma run_bind {A B} net (p : Async A) (f : A → ChatService → Async B) :
  run net (bind p f)
  = (let '(a, st, calls) := run net p in
     let '(b, st', calls') := run net (f a st) in
     (b, st', calls ++ calls')).
Proof.
  induction p as [a st|st call k IH]; simpl.
  - destruct (run net (f a st)) as [[b st'] calls']. reflexivity.
  - rewrite IH. destruct (run net (k (net call) st)) as [[a st1] calls].
    destruct (run net (f a st1)) as [[b st'] calls']. reflexivity.
Qed.

Lemma clearConversation_history sid other st :
  history_of (clearConversation sid st) other
  = if decide (sid = other) then [] else history_of st other.
Proof.
  unfold clearConversation, history_of. simpl.
  destruct (decide (sid = other)) as [->|Hne].
  - rewrite lookup_delete_eq. reflexivity.
  - rewrite lookup_delete_ne by assumption. reflexivity.
Qed.

Lemma getConversationStats_history sid other st :
  history_of (snd (getConversationStats sid st)) other = history_of st other.
Proof.
  unfold getConversationStats.
  pose proof (getConversationHistory_history sid other st) as Hh.
  destruct (getConversationHistory sid st). exact Hh.
Qed.

Lemma window_length l :
  0 <= maxHistoryMessages (chat cfg) →
  Z.of_nat (length (window cfg l)) <= maxHistoryMessages (chat cfg).
Proof.
  intros HH. rewrite window_last_n by assumption. rewrite last_n_length. lia.
Qed.

(** The history of a session after [processMessage], for every outcome: as
    it was, or what the eviction step left. *)
Lemma processMessage_history_cases net um sid opts st s :
  history_of (snd (fst (run net (processMessage cfg um sid opts st)))) s
  = history_of st s
  ∨ ∃ l, history_of (snd (fst (run net (processMessage cfg um sid opts st)))) s
         = window cfg l.
Proof.
  destruct (present um && present (trim <$> um) && present sid)%bool eqn:Hvalid.
  - destruct um as [text|]; [|discriminate].
    destruct sid as [key|]; [|rewrite andb_false_r in Hvalid; discriminate].
    simpl in Hvalid. apply andb_prop in Hvalid as [Hvalid Hkey].
    apply andb_prop in Hvalid as [_ Htext].
    rewrite processMessage_accepted;
      [|destruct (trim text); [discriminate|congruence]
       |destruct key; [discriminate|congruence]].
    destruct (run_bind_send cfg net
                (fst (createChatRequest cfg text key opts st))
                (snd (createChatRequest cfg text key opts st))
                (processMessage_resume cfg key))
      as (response & call & -> & _ & _).
    pose proof (resume_state cfg net key response
                  (snd (createChatRequest cfg text key opts st))) as Hres.
    destruct (run _ (processMessage_resume cfg key response _)) as [[a s1] cs].
    simpl in *.
    destruct (decide (key = s)) as [<-|Hne].
    + right. destruct Hres as [->|(body & _ & ->)].
      * eexists. apply createChatRequest_history.
      * rewrite getConversationHistory_history, addToConversation_same.
        eexists. reflexivity.
    + left. destruct Hres as [->|(body & _ & ->)].
      * apply createChatRequest_other. assumption.
      * rewrite getConversationHistory_history.
        rewrite addToConversation_other by assumption.
        change (history_of (mkService (conversations ?x) _) s)
          with (history_of x s).
        apply createChatRequest_other. assumption.
  - rewrite (processMessage_rejected cfg um sid opts st Hvalid). left. reflexivity.
Qed.

Lemma exec_op_history_cases op st s :
  history_of (exec_op cfg st op) s = history_of st s
  ∨ history_of (exec_op cfg st op) s = []
  ∨ ∃ l, history_of (exec_op cfg st op) s = window cfg l.
Proof.
  destruct op as [um sid opts reply|sid|sid|sid]; simpl.
  - destruct (processMessage_history_cases (fun _ => reply) um sid opts st s)
      as [H|H]; [left; exact H | right; right; exact H].
  - rewrite clearConversation_history.
    destruct (decide (sid = s)); [right; left|left]; reflexivity.
  - left. apply getConversationHistory_history.
  - left. apply getConversationStats_history.
Qed.

Lemma within_window_exec ops st :
  0 <= maxHistoryMessages (chat cfg) →
  within_window cfg st → within_window cfg (exec cfg ops st).
Proof.
  intros HH. revert st. induction ops as [|op ops IH]; intros st Hst; [exact Hst|].
  simpl. apply IH. intros s.
  destruct (exec_op_history_cases op st s) as [->|[->|(l & ->)]].
  - apply Hst.
  - simpl. assumption.
  - apply window_length. assumption.
Qed.

Lemma within_window_new :
  0 <= maxHistoryMessages (chat cfg) → within_window cfg new_service.
Proof.
  intros HH s. unfold history_of, new_service. simpl.
  rewrite lookup_empty. simpl. assumption.
Qed.

(** X1. Clearing a session removes its entry: the history read next is
    empty, the other sessions keep their entries, and clearing twice is
    clearing once (clearing an absent session changes nothing). *)
Theorem clearConversation_resets (sessionId : JsString) (st : ChatService) :
  conversations (clearConversation sessionId st) !! sessionId = None
  ∧ fst (getConversationHistory sessionId (clearConversation sessionId st)) = []
  ∧ (∀ other, other ≠ sessionId →
              conversations (clearConversation sessionId st) !! other
              = conversations st !! other)
  ∧ clearConversation sessionId (clearConversation sessionId st)
    = clearConversation sessionId st
  ∧ (conversations st !! sessionId = None →
     clearConversation sessionId st = st).
Proof.
  unfold clearConversation. simpl.
  split; [apply lookup_delete_eq|].
  split.
  { unfold getConversationHistory. simpl. rewrite lookup_delete_eq. reflexivity. }
  split.
  { intros other Hne. apply lookup_delete_ne. congruence. }
  split.
  { rewrite delete_delete_eq. reflexivity. }
  intros Hnone. rewrite delete_id by assumption. destruct st; reflexivity.
Qed.

(** X2. Reading the history of a session registers it: the read returns the
    stored array (empty for an unknown session), leaves every history as it
    was, and afterwards the session has an entry; for an unknown session the
    map has grown by one entry.  A second read changes nothing more. *)
Theorem history_read_registers_session (sessionId : JsString)
    (st : ChatService) :
  let history := fst (getConversationHistory sessionId st) in
  let st' := snd (getConversationHistory sessionId st) in
  history = default [] (conversations st !! sessionId)
  ∧ conversations st' !! sessionId = Some history
  ∧ (∀ other, other ≠ sessionId →
              conversations st' !! other = conversations st !! other)
  ∧ getConversationHistory sessionId st' = (history, st')
  ∧ size (conversations st')
    = match conversations st !! sessionId with
      | Some _ => size (conversations st)
      | None => S (size (conversations st))
      end.
Proof.
  unfold getConversationHistory.
  destruct (conversations st !! sessionId) as [h|] eqn:Hlook; simpl.
  - rewrite Hlook. repeat split; reflexivity.
  - rewrite lookup_insert_eq. repeat split; try reflexivity.
    + intros other Hne. apply lookup_insert_ne. congruence.
    + apply map_size_insert_None. assumption.
Qed.

(** X3. Over every sequence of operations on a new service, with a
    non-negative window, no session ever holds more than
    [maxHistoryMessages] messages. *)
Theorem history_bound_all_operations (ops : list Operation)
    (sessionId : JsString) :
  0 <= maxHistoryMessages (chat cfg) →
  Z.of_nat (length (history_of (exec cfg ops new_service) sessionId))
  <= maxHistoryMessages (chat cfg).
Proof.
  intros HH.
  apply (within_window_exec ops new_service HH (within_window_new HH)).
Qed.

(** X4. On every state the service reaches, the request built for the next
    turn carries at most [maxHistoryMessages + 2] messages: the system
    message, the stored window and the new user message. *)
Theorem request_size_bound (ops : list Operation)
    (userMessage sessionId : JsString) (options : ChatOptions) :
  0 <= maxHistoryMessages (chat cfg) →
  Z.of_nat (length (messages (fst (createChatRequest cfg userMessage sessionId
                                     options (exec cfg ops new_service)))))
  <= maxHistoryMessages (chat cfg) + 2.
Proof.
  intros HH. rewrite createChatRequest_request. simpl.
  rewrite length_app. simpl.
  pose proof (within_window_exec ops new_service HH (within_window_new HH)
                sessionId) as Hb.
  destruct (default true (opt_includeHistory options)); simpl; lia.
Qed.

(** X5. A negative [maxHistoryMessages] is taken as it is: every append then
    leaves the session empty, so the history never reaches a request. *)
Theorem negative_window_keeps_nothing (sessionId : JsString) (m : MsgObj)
    (userMessage : JsString) (options : ChatOptions) (st : ChatService) :
  maxHistoryMessages (chat cfg) < 0 →
  history_of (addToConversation cfg sessionId m st) sessionId = []
  ∧ history_of (snd (createChatRequest cfg userMessage sessionId options st))
      sessionId = [].
Proof.
  intros Hneg.
  assert (Hw : ∀ l, window cfg l = []).
  { intros l. unfold window, splice0.
    destruct (Z.gtb_spec (Z.of_nat (length l)) (maxHistoryMessages (chat cfg)));
      [|lia].
    apply drop_ge. lia. }
  split.
  - rewrite addToConversation_same. apply Hw.
  - rewrite createChatRequest_history. apply Hw.
Qed.

End StoreOperations.

(** ** More on trimming *)

Section Trimming.

Lemma trimStart_head (s : JsString) x :
  head (trimStart s) = Some x → isWhiteSpace x = false.
Proof.
  induction s as [|c s IH]; simpl; [discriminate|].
  destruct (isWhiteSpace c) eqn:Hc; [exact IH|].
  simpl. intros [= <-]. exact Hc.
Qed.

Lemma trimStart_fixed (s : JsString) :
  (∀ x, head s = Some x → isWhiteSpace x = false) → trimStart s = s.
Proof.
  destruct s as [|c s]; [reflexivity|]. simpl. intros Hh.
  rewrite (Hh c) by reflexivity. reflexivity.
Qed.

Lemma trimStart_idemp (s : JsString) : trimStart (trimStart s) = trimStart s.
Proof. apply trimStart_fixed. apply trimStart_head. Qed.

Lemma trimStart_suffix (s : JsString) : ∃ p, s = p ++ trimStart s.
Proof.
  induction s as [|c s [p IH]]; [exists []; reflexivity|]. simpl.
  destruct (isWhiteSpace c).
  - exists (c :: p). simpl. f_equal. exact IH.
  - exists []. reflexivity.
Qed.

Lemma last_rev {A} (l : list A) : last (rev l) = head l.
Proof. destruct l as [|a l]; [reflexivity|]. simpl. apply last_snoc. Qed.

Lemma head_rev {A} (l : list A) : head (rev l) = last l.
Proof. rewrite <- (rev_involutive l) at 2. symmetry. apply last_rev. Qed.

Lemma trimEnd_prefix (s : JsString) : ∃ t, s = trimEnd s ++ t.
Proof.
  unfold trimEnd. destruct (trimStart_suffix (rev s)) as [p Hp].
  exists (rev p). rewrite <- rev_app_distr, <- Hp, rev_involutive. reflexivity.
Qed.

Lemma trim_last (s : JsString) x :
  last (trim s) = Some x → isWhiteSpace x = false.
Proof. unfold trim, trimEnd. rewrite last_rev. apply trimStart_head. Qed.

Lemma trim_head (s : JsString) x :
  head (trim s) = Some x → isWhiteSpace x = false.
Proof.
  unfold trim. destruct (trimEnd_prefix (trimStart s)) as [t Ht].
  intros Hh. apply (trimStart_head s). rewrite Ht.
  destruct (trimEnd (trimStart s)); [discriminate|exact Hh].
Qed.

Lemma trim_idemp (s : JsString) : trim (trim s) = trim s.
Proof.
  unfold trim at 1. rewrite (trimStart_fixed (trim s)) by apply trim_head.
  unfold trim, trimEnd. rewrite rev_involutive, trimStart_idemp. reflexivity.
Qed.

End Trimming.

(** ** More on the facade *)

Section Turns.

Variable cfg : Config.

Lemma window_keeps_tail l t :
  Z.of_nat (length t) <= maxHistoryMessages (chat cfg) →
  ∃ before, window cfg (l ++ t) = before ++ t.
Proof.
  intros Ht. unfold window, splice0. rewrite length_app.
  destruct (_ >? _); [|exists l; reflexivity].
  rewrite drop_app_le by lia. eexists. reflexivity.
Qed.

Lemma well_formed_reply_checks r :
  well_formed_reply r = true →
  nullish (data r) = false ∧ truthy (first_choice_message (data r)) = true.
Proof.
  unfold well_formed_reply. intros H. apply andb_prop in H as [Hn Ht].
  split; [destruct (nullish (data r)); [discriminate|reflexivity] | exact Ht].
Qed.

(** The resumed method on a reply that passes both checks. *)
Lemma run_resume_stored net sid body st :
  nullish body = false → truthy (first_choice_message body) = true →
  ∃ st',
    run net (processMessage_resume cfg sid (GwSuccess body) st)
    = (Success (get_field "content" (first_choice_message body))
         (get_field "usage" body) (get_field "model" body)
         (length (history_of st' sid)), st', [])
    ∧ fresh st' = S (fresh st)
    ∧ history_of st' sid
      = window cfg (history_of st sid
                    ++ [mkMsg (fresh st) (first_choice_message body)])
    ∧ ∀ other, other ≠ sid → history_of st' other = history_of st other.
Proof.
  intros Hn Ht. unfold processMessage_resume. rewrite Hn, Ht. simpl.
  set (st2 := addToConversation cfg sid _ _).
  pose proof (getConversationHistory_fst sid st2) as Hf.
  pose proof (fun o => getConversationHistory_history sid o st2) as Hh.
  pose proof (getConversationHistory_fresh sid st2) as Hfr.
  destruct (getConversationHistory sid st2) as [h st3]. cbn [fst snd] in *.
  exists st3. subst h. rewrite Hh. split; [reflexivity|].
  split; [rewrite Hfr; apply addToConversation_fresh|].
  split.
  - unfold st2. rewrite addToConversation_same. reflexivity.
  - intros other Hne. rewrite Hh. unfold st2.
    rewrite addToConversation_other by congruence. reflexivity.
Qed.

(** The outcome of an accepted call, by the answer of the network. *)
Lemma run_processMessage_accepted net um sid opts st :
  trim um ≠ [] → sid ≠ [] →
  ∃ call,
    post_body call = fst (createChatRequest cfg um sid opts st)
    ∧ run net (processMessage cfg (Some um) (Some sid) opts st)
      = match net call with
        | Resolved r =>
            let '(a, st', _) :=
              run net (processMessage_resume cfg sid (GwSuccess (data r))
                         (snd (createChatRequest cfg um sid opts st))) in
            (a, st', [call])
        | Rejected e =>
            (Failure
               (match err_response e with
                | Some response =>
                    lit "API Error: " ++ int_to_str (status response)
                    ++ lit " - " ++ statusText response
                | None =>
                    if err_request e
                    then lit "Network error: Unable to reach chat API service"
                    else lit "Request error: " ++ err_message e
                end)
               (data <$> err_response e),
             snd (createChatRequest cfg um sid opts st), [call])
        end.
Proof.
  intros Hum Hsid. rewrite processMessage_accepted by assumption.
  unfold sendChatRequest. cbn [bind run].
  match goal with |- context [net ?c] => set (call := c) end.
  exists call. split; [reflexivity|].
  destruct (net call) as [r|e]; cbn [bind run].
  - unfold processMessage_resume.
    destruct (nullish (data r)); cbn [run]; [reflexivity|].
    destruct (negb (truthy (first_choice_message (data r)))); cbn [run];
      [reflexivity|].
    destruct (alloc _ _) as [am st3].
    destruct (getConversationHistory _ _). reflexivity.
  - destruct (err_response e) as [r|]; cbn [bind run processMessage_resume];
      [reflexivity|].
    destruct (err_request e); reflexivity.
Qed.

(** X6. The result of an accepted call is a success exactly when the
    upstream call resolved with a body that is neither [null] nor
    [undefined] and whose first-choice message is truthy; every other
    answer is a failure. *)
Theorem processMessage_success_iff (reply : AxiosOutcome)
    (userMessage sessionId : JsString) (options : ChatOptions)
    (st : ChatService) :
  trim userMessage ≠ [] → sessionId ≠ [] →
  is_success
    (fst (fst (run (fun _ => reply)
                 (processMessage cfg (Some userMessage) (Some sessionId)
                    options st))))
  = match reply with
    | Resolved r => well_formed_reply r
    | Rejected _ => false
    end.
Proof.
  intros Hum Hsid.
  destruct (run_processMessage_accepted (fun _ => reply) userMessage sessionId
              options st Hum Hsid) as (call & _ & ->).
  destruct reply as [r|e]; [|reflexivity].
  unfold well_formed_reply, processMessage_resume.
  destruct (nullish (data r)); cbn [run negb andb]; [reflexivity|].
  destruct (truthy (first_choice_message (data r))); cbn [run negb];
    [|reflexivity].
  destruct (alloc _ _) as [am st3].
  destruct (getConversationHistory _ _). reflexivity.
Qed.

(** X7. A successful turn, in full: one upstream call carrying the built
    request; the result holds the reply's content, usage and model and the
    length of the stored history; the session's history is the window of
    the user turn followed by the reply; other sessions are untouched; and
    with a window of at least two the pair ends the history. *)
Theorem processMessage_success (net : PostCall → AxiosOutcome) (r : Response)
    (userMessage sessionId : JsString) (options : ChatOptions)
    (st : ChatService) :
  trim userMessage ≠ [] → sessionId ≠ [] →
  (∀ call, net call = Resolved r) →
  well_formed_reply r = true →
  let userMsg := new_user_message userMessage st in
  let assistantMsg :=
    mkMsg (S (S (fresh st))) (first_choice_message (data r)) in
  ∃ call st',
    run net (processMessage cfg (Some userMessage) (Some sessionId) options st)
    = (Success (get_field "content" (first_choice_message (data r)))
         (get_field "usage" (data r)) (get_field "model" (data r))
         (length (history_of st' sessionId)), st', [call])
    ∧ post_body call = fst (createChatRequest cfg userMessage sessionId options st)
    ∧ history_of st' sessionId
      = window cfg (window cfg (history_of st sessionId ++ [userMsg])
                    ++ [assistantMsg])
    ∧ (∀ other, other ≠ sessionId →
                history_of st' other = history_of st other)
    ∧ (2 <= maxHistoryMessages (chat cfg) →
       ∃ before, history_of st' sessionId = before ++ [userMsg; assistantMsg]).
Proof.
  intros Hum Hsid Hnet Hwf userMsg assistantMsg. subst userMsg assistantMsg.
  destruct (well_formed_reply_checks r Hwf) as [Hn Ht].
  destruct (run_processMessage_accepted net userMessage sessionId options st
              Hum Hsid) as (call & Hbody & Hrun).
  rewrite Hnet in Hrun.
  destruct (run_resume_stored net sessionId (data r)
              (snd (createChatRequest cfg userMessage sessionId options st))
              Hn Ht) as (st' & Hres & _ & Hhist & Hother).
  rewrite Hres in Hrun. rewrite createChatRequest_fresh in Hhist.
  rewrite createChatRequest_history in Hhist.
  exists call, st'. split; [exact Hrun|]. split; [exact Hbody|].
  split; [exact Hhist|]. split.
  - intros other Hne. rewrite Hother by assumption.
    apply createChatRequest_other. congruence.
  - intros HH. rewrite Hhist.
    destruct (window_keeps_tail (history_of st sessionId)
                [new_user_message userMessage st]) as [b1 ->]; [simpl; lia|].
    rewrite <- app_assoc. simpl.
    apply (window_keeps_tail b1 [_; _]). simpl. lia.
Qed.

(** X8. An operation changes the history of no session but the one it
    addresses. *)
Theorem operations_leave_other_sessions (op : Operation) (st : ChatService)
    (other : JsString) :
  op_session op ≠ Some other →
  history_of (exec_op cfg st op) other = history_of st other.
Proof.
  intros Hne. destruct op as [um sid opts reply|sid|sid|sid]; simpl in *.
  - destruct (present um && present (trim <$> um) && present sid)%bool eqn:Hvalid.
    + destruct um as [text|]; [|discriminate].
      destruct sid as [key|]; [|rewrite andb_false_r in Hvalid; discriminate].
      simpl in Hvalid. apply andb_prop in Hvalid as [Hvalid Hkey].
      apply andb_prop in Hvalid as [_ Htext].
      destruct (run_processMessage_accepted (fun _ => reply) text key opts st)
        as (call & _ & ->);
        [destruct (trim text); [discriminate|congruence]
        |destruct key; [discriminate|congruence]|].
      destruct reply as [r|e]; [|apply createChatRequest_other; congruence].
      pose proof (resume_state cfg (fun _ => Resolved r) key (GwSuccess (data r))
                    (snd (createChatRequest cfg text key opts st))) as Hres.
      destruct (run _ (processMessage_resume cfg key _ _)) as [[a s1] cs].
      simpl in *. destruct Hres as [->|(body & _ & ->)].
      * apply createChatRequest_other. congruence.
      * rewrite getConversationHistory_history.
        rewrite addToConversation_other by congruence.
        change (history_of (mkService (conversations ?x) _) other)
          with (history_of x other).
        apply createChatRequest_other. congruence.
    + rewrite (processMessage_rejected cfg um sid opts st Hvalid). reflexivity.
  - rewrite clearConversation_history.
    destruct (decide (sid = other)); [congruence|reflexivity].
  - apply getConversationHistory_history.
  - apply getConversationStats_history.
Qed.

(** X9. With [includeHistory: false] the request carries the system message
    and the new user message only, and the user turn is recorded in the
    session all the same. *)
Theorem history_recorded_when_not_sent (userMessage sessionId : JsString)
    (options : ChatOptions) (st : ChatService) :
  opt_includeHistory options = Some false →
  messages (fst (createChatRequest cfg userMessage sessionId options st))
  = [new_system_message cfg options st; new_user_message userMessage st]
  ∧ history_of (snd (createChatRequest cfg userMessage sessionId options st))
      sessionId
    = window cfg (history_of st sessionId ++ [new_user_message userMessage st]).
Proof.
  intros Hincl. rewrite createChatRequest_request, createChatRequest_history.
  rewrite Hincl. split; reflexivity.
Qed.

(** X10. The user turn of an accepted call is one object, stored last in the
    session and sent last in the request while the method is suspended; its
    role is [user] and its content is the text of the call, trimmed: not
    empty, unchanged by trimming again, with no white space at either
    end. *)
Theorem stored_user_content_trimmed (userMessage sessionId : JsString)
    (options : ChatOptions) (st : ChatService) :
  trim userMessage ≠ [] → sessionId ≠ [] →
  1 <= maxHistoryMessages (chat cfg) →
  ∃ st1 call k m,
    processMessage cfg (Some userMessage) (Some sessionId) options st
    = Await st1 call k
    ∧ last (history_of st1 sessionId) = Some m
    ∧ last (messages (post_body call)) = Some m
    ∧ role_of m = JStr (lit "user")
    ∧ content_of m = JStr (trim userMessage)
    ∧ trim (trim userMessage) = trim userMessage
    ∧ (∀ x, head (trim userMessage) = Some x → isWhiteSpace x = false)
    ∧ (∀ x, last (trim userMessage) = Some x → isWhiteSpace x = false).
Proof.
  intros Hum Hsid HH.
  rewrite processMessage_accepted by assumption.
  unfold sendChatRequest. cbn [bind].
  eexists _, _, _, (new_user_message userMessage st).
  split; [reflexivity|].
  split; [rewrite createChatRequest_history; apply window_last; assumption|].
  split.
  { cbn [post_body]. rewrite createChatRequest_request. cbn [messages].
    rewrite app_comm_cons. apply last_snoc. }
  split; [reflexivity|]. split; [reflexivity|].
  split; [apply trim_idemp|].
  split; [apply trim_head | apply trim_last].
Qed.

End Turns.

(** ** Roles and statistics *)

Section Statistics.

Variable cfg : Config.

Lemma run_resume_rejected net sid r st :
  well_formed_reply r = false →
  snd (fst (run net (processMessage_resume cfg sid (GwSuccess (data r)) st))) = st.
Proof.
  unfold well_formed_reply, processMessage_resume. intros Hwf.
  destruct (nullish (data r)); cbn [run fst snd]; [reflexivity|].
  cbn [negb andb] in Hwf. rewrite Hwf. reflexivity.
Qed.

(** As [all_stored_processMessage], for a property that need only hold of
    the replies the method accepts. *)
Lemma all_stored_processMessage_checked P um sid opts reply st :
  all_stored P st →
  (∀ text, um = Some text → P (new_user_message text st)) →
  (∀ r, reply = Resolved r → well_formed_reply r = true →
        P (mkMsg (S (S (fresh st))) (first_choice_message (data r)))) →
  all_stored P
    (snd (fst (run (fun _ => reply) (processMessage cfg um sid opts st)))).
Proof.
  intros HP Huser Hreply.
  destruct (present um && present (trim <$> um) && present sid)%bool eqn:Hvalid.
  - destruct um as [text|]; [|discriminate].
    destruct sid as [key|]; [|rewrite andb_false_r in Hvalid; discriminate].
    simpl in Hvalid. apply andb_prop in Hvalid as [Hvalid Hkey].
    apply andb_prop in Hvalid as [_ Htext].
    destruct (run_processMessage_accepted cfg (fun _ => reply) text key opts st)
      as (call & _ & ->);
      [destruct (trim text); [discriminate|congruence]
      |destruct key; [discriminate|congruence]|].
    assert (Hst1 : all_stored P (snd (createChatRequest cfg text key opts st))).
    { apply all_stored_createChatRequest; [exact HP|apply Huser; reflexivity]. }
    destruct reply as [r|e]; [|exact Hst1].
    destruct (well_formed_reply r) eqn:Hwf.
    + destruct (well_formed_reply_checks r Hwf) as [Hn Ht].
      destruct (run_resume_stored cfg (fun _ => Resolved r) key (data r)
                  (snd (createChatRequest cfg text key opts st)) Hn Ht)
        as (st' & -> & _ & Hhist & Hother).
      cbn [fst snd]. intros s m Hm.
      destruct (decide (s = key)) as [->|Hne].
      * rewrite Hhist in Hm. apply window_sublist in Hm.
        apply elem_of_app in Hm as [Hm|Hm]; [exact (Hst1 key m Hm)|].
        apply list_elem_of_singleton in Hm. subst m.
        rewrite createChatRequest_fresh. apply Hreply; [reflexivity|exact Hwf].
      * rewrite Hother in Hm by assumption. exact (Hst1 s m Hm).
    + pose proof (run_resume_rejected (fun _ => Resolved r) key r
                    (snd (createChatRequest cfg text key opts st)) Hwf) as Hs.
      destruct (run _ (processMessage_resume cfg key _ _)) as [[a s1] cs].
      cbn [fst snd] in *. subst s1. exact Hst1.
  - rewrite (processMessage_rejected cfg um sid opts st Hvalid). exact HP.
Qed.

Lemma count_roles (l : list MsgObj) :
  (∀ m, m ∈ l → has_role "user" m = true ∨ has_role "assistant" m = true) →
  (length (List.filter (has_role "user") l)
   + length (List.filter (has_role "assistant") l))%nat = length l.
Proof.
  induction l as [|m l IH]; intros Hl; [reflexivity|]. simpl.
  assert (Hdisjoint : has_role "user" m = true → has_role "assistant" m = false).
  { unfold has_role. destruct (role_of m); try discriminate.
    intros Hu. apply bool_decide_eq_true in Hu. subst s. reflexivity. }
  specialize (IH (fun x Hx => Hl x (list_elem_of_further _ _ _ Hx))).
  destruct (Hl m (list_elem_of_here _ _)) as [Hu|Ha].
  - rewrite Hu, (Hdisjoint Hu). simpl. lia.
  - rewrite Ha. destruct (has_role "user" m) eqn:Hu.
    + rewrite (Hdisjoint eq_refl) in Ha. discriminate.
    + simpl. lia.
Qed.

Lemma roles_known_exec ops st :
  Forall reply_is_assistant ops →
  all_stored (fun m => has_role "user" m = true ∨ has_role "assistant" m = true) st →
  all_stored (fun m => has_role "user" m = true ∨ has_role "assistant" m = true)
    (exec cfg ops st).
Proof.
  intros Hops. revert st. induction Hops as [|op ops Hop _ IH]; intros st HP;
    [exact HP|].
  simpl. apply IH. destruct op as [um sid opts reply|sid|sid|sid]; simpl.
  - apply all_stored_processMessage_checked; [exact HP| |].
    + intros text _. left. reflexivity.
    + intros r -> Hwf. right. unfold has_role, role_of. simpl.
      simpl in Hop. rewrite (Hop Hwf). reflexivity.
  - apply all_stored_clear. exact HP.
  - apply all_stored_get. exact HP.
  - apply all_stored_stats. exact HP.
Qed.

(** X12. The statistics of a session count its stored messages; when every
    reply the service accepted carried the assistant role, the user and
    assistant counts add up to the total, over every sequence of
    operations on a new service.  Asking for statistics changes no
    history. *)
Theorem stats_count_turns (ops : list Operation) (sessionId : JsString) :
  Forall reply_is_assistant ops →
  let st := exec cfg ops new_service in
  let stats := fst (getConversationStats sessionId st) in
  totalMessages stats = length (history_of st sessionId)
  ∧ (userMessages stats + assistantMessages stats)%nat = totalMessages stats
  ∧ ∀ other, history_of (snd (getConversationStats sessionId st)) other
             = history_of st other.
Proof.
  intros Hops st stats. subst stats.
  pose proof (roles_known_exec ops new_service Hops (all_stored_new _) sessionId)
    as Hroles. fold st in Hroles.
  unfold getConversationStats.
  pose proof (getConversationHistory_fst sessionId st) as Hf.
  pose proof (fun o => getConversationHistory_history sessionId o st) as Hh.
  destruct (getConversationHistory sessionId st) as [h st1].
  cbn [fst snd totalMessages userMessages assistantMessages] in *. subst h.
  split; [reflexivity|]. split; [|exact Hh].
  apply count_roles. exact Hroles.
Qed.

End Statistics.

(** ** More on the prompt composer and the configuration *)

Section Prompts.

Variable cfg : Config.

(** X13. Fields of [userInfo] that are empty strings, and the language
    [en], are the same as absent fields: for every context the prompt is
    the one built from the remaining fields. *)
Theorem ignored_userInfo_fields (context : JsString) (userInfo : UserInfo) :
  buildSystemPrompt cfg context userInfo
  = buildSystemPrompt cfg context (effective_userInfo userInfo).
Proof.
  unfold buildSystemPrompt, effective_userInfo. cbn [name location preferredLanguage].
  destruct (present (name userInfo)) eqn:Hn;
    destruct (present (location userInfo)) eqn:Hl;
    destruct (present (preferredLanguage userInfo)
              && negb (bool_decide (preferredLanguage userInfo = Some (lit "en"))))%bool
      eqn:Hp;
    cbn [present]; rewrite ?Hn, ?Hl, ?Hp; reflexivity.
Qed.

End Prompts.

(** X14. Whatever the environment, no setting of the configuration module
    is falsy: an unset, empty, zero or unparsable variable falls back to
    its default.  A variable that parses to a non-zero integer is used as
    it is, negative values included. *)
Theorem config_settings_never_falsy (env : Env) :
  let cfg := chatConfig env in
  endpoint (api cfg) ≠ [] ∧ apiKey (api cfg) ≠ [] ∧ model (api cfg) ≠ []
  ∧ defaultContext (chat cfg) ≠ []
  ∧ timeout (api cfg) ≠ 0
  ∧ maxHistoryMessages (chat cfg) ≠ 0
  ∧ maxTokens (chat cfg) ≠ 0
  ∧ ¬ (defaultTemperature (chat cfg) == 0)%Q
  ∧ (∀ z, CHAT_MAX_HISTORY env = Some z → z ≠ 0 →
          maxHistoryMessages (chat cfg) = z)
  ∧ (∀ z, CHAT_API_TIMEOUT env = Some z → z ≠ 0 → timeout (api cfg) = z)
  ∧ (CHAT_MAX_HISTORY env = None ∨ CHAT_MAX_HISTORY env = Some 0 →
     maxHistoryMessages (chat cfg) = 20).
Proof.
  assert (Hstr : ∀ v d, d ≠ [] → str_or v d ≠ []).
  { intros v d Hd. unfold str_or. destruct v as [s|]; [|exact Hd].
    destruct s; [exact Hd|discriminate]. }
  assert (Hint : ∀ v d, d ≠ 0 → int_or v d ≠ 0).
  { intros v d Hd. unfold int_or. destruct v as [z|]; [|exact Hd].
    destruct (Z.eqb_spec z 0); assumption. }
  assert (Huse : ∀ v d z, v = Some z → z ≠ 0 → int_or v d = z).
  { intros v d z -> Hz. unfold int_or.
    destruct (Z.eqb_spec z 0); [contradiction|reflexivity]. }
  cbv zeta. unfold chatConfig. cbn [api chat endpoint apiKey model timeout
    maxHistoryMessages defaultTemperature maxTokens defaultContext].
  repeat split.
  - apply Hstr. vm_compute. discriminate.
  - apply Hstr. vm_compute. discriminate.
  - apply Hstr. vm_compute. discriminate.
  - apply Hstr. vm_compute. discriminate.
  - apply Hint. discriminate.
  - apply Hint. discriminate.
  - apply Hint. discriminate.
  - unfold num_or. destruct (CHAT_TEMPERATURE env) as [q|];
      [|intros E; vm_compute in E; discriminate].
    destruct (Qeq_bool q 0) eqn:Hq; [intros E; vm_compute in E; discriminate|].
    intros E. apply Qeq_bool_iff in E. congruence.
  - intros z Hz Hnz. apply Huse; assumption.
  - intros z Hz Hnz. apply Huse; assumption.
  - intros [->| ->]; reflexivity.
Qed.

(** ** The routes *)

Section RouteFacts.

Variable cfg : Config.

(** The two ways an accepted call ends. *)
Lemma processMessage_outcome net um sid opts st :
  trim um ≠ [] → sid ≠ [] →
  ∃ call result st',
    run net (processMessage cfg (Some um) (Some sid) opts st)
    = (result, st', [call])
    ∧ post_body call = fst (createChatRequest cfg um sid opts st)
    ∧ ((∃ r, net call = Resolved r
             ∧ well_formed_reply r = true
             ∧ result
               = Success (get_field "content" (first_choice_message (data r)))
                   (get_field "usage" (data r)) (get_field "model" (data r))
                   (length (history_of st' sid))
             ∧ history_of st' sid
               = window cfg
                   (window cfg (history_of st sid ++ [new_user_message um st])
                    ++ [mkMsg (S (S (fresh st)))
                          (first_choice_message (data r))]))
       ∨ (match net call with
          | Resolved r => well_formed_reply r = false
          | Rejected _ => True
          end
          ∧ st' = snd (createChatRequest cfg um sid opts st)
          ∧ ∃ error details,
              result = Failure error details
              ∧ error ≠ lit "Session ID is required")).
Proof.
  intros Hum Hsid.
  destruct (run_processMessage_accepted cfg net um sid opts st Hum Hsid)
    as (call & Hbody & Hrun).
  exists call. destruct (net call) as [r|e] eqn:Hnet.
  - destruct (well_formed_reply r) eqn:Hwf.
    + destruct (well_formed_reply_checks r Hwf) as [Hn Ht].
      destruct (run_resume_stored cfg net sid (data r)
                  (snd (createChatRequest cfg um sid opts st)) Hn Ht)
        as (st' & Hres & _ & Hhist & _).
      rewrite Hres in Hrun. eexists _, st'. split; [exact Hrun|].
      split; [exact Hbody|]. left. exists r.
      split; [reflexivity|]. split; [exact Hwf|]. split; [reflexivity|].
      rewrite Hhist, createChatRequest_history, createChatRequest_fresh.
      reflexivity.
    + revert Hrun. unfold processMessage_resume.
      unfold well_formed_reply in Hwf.
      destruct (nullish (data r)); cbn [run negb andb] in *.
      * intros Hrun. eexists _, _. split; [exact Hrun|]. split; [exact Hbody|].
        right. split; [reflexivity|]. split; [reflexivity|].
        eexists _, _. split; [reflexivity|].
        intros E. vm_compute in E. discriminate.
      * rewrite Hwf. cbn [run negb]. intros Hrun.
        eexists _, _. split; [exact Hrun|]. split; [exact Hbody|].
        right. split; [reflexivity|]. split; [reflexivity|].
        eexists _, _. split; [reflexivity|].
        intros E. vm_compute in E. discriminate.
  - eexists _, _. split; [exact Hrun|]. split; [exact Hbody|].
    right. split; [exact I|]. split; [reflexivity|].
    eexists _, _. split; [reflexivity|].
    destruct (err_response e); [|destruct (err_request e)];
      intros E; vm_compute in E; discriminate.
Qed.

Lemma str_or_nonempty v d : d ≠ [] → str_or v d ≠ [].
Proof.
  intros Hd. unfold str_or. destruct v as [s|]; [|exact Hd].
  destruct s; [exact Hd|discriminate].
Qed.

Lemma generated_session_id_nonempty now suffix :
  generated_session_id now suffix ≠ [].
Proof. intros E. vm_compute in E. discriminate. Qed.

Lemma present_Some_true (s : JsString) : present (Some s) = true → s ≠ [].
Proof. destruct s; [discriminate|congruence]. Qed.

(** X15. [POST /message] without a message (absent or empty) answers 400
    [Message is required]; it makes no upstream call and leaves the service
    as it was. *)
Theorem post_message_requires_message (net : PostCall → AxiosOutcome)
    (body : ChatBody) (now : Z) (suffix : JsString) (st : ChatService) :
  present (body_message body) = false →
  run net (post_message cfg body now suffix st)
  = (mkReply 400 (RError (lit "Message is required") None), st, []).
Proof. intros Hm. unfold post_message. rewrite Hm. reflexivity. Qed.

(** X16. [POST /message] with a message of white space only passes the
    route's own check and is rejected by the service: the answer is 500
    (not 400) with [Message cannot be empty], no upstream call is made and
    the service is left as it was. *)
Theorem post_message_blank_message (net : PostCall → AxiosOutcome)
    (body : ChatBody) (text : JsString) (now : Z) (suffix : JsString)
    (st : ChatService) :
  body_message body = Some text → text ≠ [] → trim text = [] →
  run net (post_message cfg body now suffix st)
  = (mkReply 500 (RError (lit "Message cannot be empty") None), st, []).
Proof.
  intros Hm Htext Hblank. unfold post_message. rewrite Hm.
  cbn [present]. rewrite (str_truthy_true text Htext). cbn [negb].
  rewrite run_bind. rewrite processMessage_rejected.
  - cbn [present fmap option_fmap option_map]. rewrite Hblank.
    rewrite (str_truthy_true text Htext). reflexivity.
  - cbn [present fmap option_fmap option_map]. rewrite Hblank.
    rewrite (str_truthy_true text Htext). reflexivity.
Qed.

(** X17. The status of [POST /message], for every request and every answer
    of the upstream: 400 without a message; 200 exactly when the message
    has text and the upstream call resolved with a reply the service
    accepts; 500 otherwise. *)
Theorem post_message_status (reply : AxiosOutcome) (body : ChatBody)
    (now : Z) (suffix : JsString) (st : ChatService) :
  http_status (fst (fst (run (fun _ => reply)
                           (post_message cfg body now suffix st))))
  = if negb (present (body_message body)) then 400
    else if (present (trim <$> body_message body)
             && match reply with
                | Resolved r => well_formed_reply r
                | Rejected _ => false
                end)%bool
    then 200 else 500.
Proof.
  unfold post_message.
  destruct (present (body_message body)) eqn:Hm; cbn [negb]; [|reflexivity].
  rewrite run_bind.
  destruct (body_message body) as [text|]; [|discriminate].
  set (sid := str_or _ _).
  assert (Hsid : sid ≠ []).
  { apply str_or_nonempty, generated_session_id_nonempty. }
  destruct (present (trim <$> Some text)) eqn:Ht.
  - match goal with |- context [processMessage cfg _ _ ?o st] => set (opts := o) end.
    destruct (processMessage_outcome (fun _ => reply) text sid opts st)
      as (call & result & st' & -> & _ & Hcases);
      [apply present_Some_true; exact Ht | exact Hsid |].
    destruct Hcases as [(r & -> & Hwf & -> & _)|(Hbad & _ & error & details & -> & _)].
    + rewrite Hwf. destruct (getConversationStats sid st'). reflexivity.
    + destruct reply as [r|e]; [rewrite Hbad|]; reflexivity.
  - rewrite processMessage_rejected.
    + rewrite Hm, Ht. reflexivity.
    + rewrite Hm, Ht. reflexivity.
Qed.

(** X18. [POST /message] never answers [Session ID is required]: a request
    without a session id (absent or empty) is served under a generated
    id. *)
Theorem post_message_always_has_session (net : PostCall → AxiosOutcome)
    (body : ChatBody) (now : Z) (suffix : JsString) (st : ChatService)
    (details : option JsVal) :
  http_body (fst (fst (run net (post_message cfg body now suffix st))))
  ≠ RError (lit "Session ID is required") details.
Proof.
  unfold post_message.
  destruct (present (body_message body)) eqn:Hm; cbn [negb];
    [|intros E; vm_compute in E; discriminate].
  rewrite run_bind.
  destruct (body_message body) as [text|]; [|discriminate].
  set (sid := str_or _ _).
  assert (Hsid : sid ≠ []).
  { apply str_or_nonempty, generated_session_id_nonempty. }
  destruct (present (trim <$> Some text)) eqn:Ht.
  - match goal with |- context [processMessage cfg _ _ ?o st] => set (opts := o) end.
    destruct (processMessage_outcome net text sid opts st)
      as (call & result & st' & -> & _ & Hcases);
      [apply present_Some_true; exact Ht | exact Hsid |].
    destruct Hcases as [(r & _ & _ & -> & _)|(_ & _ & error & d & -> & Herr)].
    + destruct (getConversationStats sid st'). discriminate.
    + cbn [run fst http_body]. intros [= E _]. contradiction.
  - rewrite processMessage_rejected.
    + rewrite Hm, Ht. cbn [andb run fst http_body].
      intros E. vm_compute in E. discriminate.
    + rewrite Hm, Ht. reflexivity.
Qed.

(** X19. A successful [POST /message]: one upstream call, whose request
    carries the sampling literals 0.7 and 500 (the route passes no
    override); the answer is 200 with the reply's content, the session id
    that was used, and statistics whose total is the length of the stored
    history. *)
Theorem post_message_success (net : PostCall → AxiosOutcome) (r : Response)
    (body : ChatBody) (text : JsString) (now : Z) (suffix : JsString)
    (st : ChatService) :
  body_message body = Some text → trim text ≠ [] →
  (∀ call, net call = Resolved r) → well_formed_reply r = true →
  let actualSessionId :=
    str_or (body_sessionId body) (generated_session_id now suffix) in
  ∃ call stats st',
    run net (post_message cfg body now suffix st)
    = (mkReply 200
         (RChat (get_field "content" (first_choice_message (data r)))
            actualSessionId (get_field "usage" (data r))
            (get_field "model" (data r)) stats), st', [call])
    ∧ temperature (post_body call) = (7 # 10)%Q
    ∧ max_tokens (post_body call) = 500
    ∧ totalMessages stats = length (history_of st' actualSessionId)
    ∧ history_of st' actualSessionId
      = window cfg
          (window cfg (history_of st actualSessionId
                       ++ [new_user_message text st])
           ++ [mkMsg (S (S (fresh st))) (first_choice_message (data r))]).
Proof.
  intros Hm Htext Hnet Hwf sid.
  assert (Hsid : sid ≠ []).
  { apply str_or_nonempty, generated_session_id_nonempty. }
  unfold post_message. rewrite Hm. cbn [present].
  rewrite (str_truthy_true text (trim_nonempty text Htext)). cbn [negb].
  rewrite run_bind. fold sid.
  match goal with |- context [processMessage cfg _ _ ?o st] => set (opts := o) end.
  destruct (processMessage_outcome net text sid opts st Htext Hsid)
    as (call & result & st1 & -> & Hbody & Hcases).
  destruct Hcases as [(r' & Hr' & _ & -> & Hhist)|(Hbad & _)].
  - rewrite Hnet in Hr'. injection Hr' as <-.
    unfold getConversationStats.
    pose proof (getConversationHistory_fst sid st1) as Hf.
    pose proof (fun o => getConversationHistory_history sid o st1) as Hh.
    destruct (getConversationHistory sid st1) as [h st2].
    cbn [fst snd run] in *. subst h.
    eexists call, _, st2. split; [reflexivity|].
    rewrite Hbody, createChatRequest_request. cbn [temperature max_tokens].
    split; [reflexivity|]. split; [reflexivity|].
    cbn [totalMessages]. rewrite Hh. split; [reflexivity|exact Hhist].
  - rewrite Hnet, Hwf in Hbad. discriminate.
Qed.


(** X21. [DELETE /conversation/:sessionId] always answers 200, for a known
    and for an unknown id alike; a [GET] that follows answers an empty
    history with all counts zero, and puts an (empty) entry back. *)
Theorem delete_then_get_is_empty (sessionId : JsString) (st : ChatService) :
  fst (delete_conversation sessionId st) = mkReply 200 RCleared
  ∧ conversations (snd (delete_conversation sessionId st)) !! sessionId = None
  ∧ ∃ st',
      get_conversation sessionId (snd (delete_conversation sessionId st))
      = (mkReply 200 (RConversation [] (mkStats 0 0 0)), st')
      ∧ conversations st' !! sessionId = Some [].
Proof.
  unfold delete_conversation, clearConversation. cbn [fst snd conversations].
  split; [reflexivity|]. split; [apply lookup_delete_eq|].
  unfold get_conversation, getConversationStats, getConversationHistory.
  cbn [conversations]. rewrite lookup_delete_eq.
  cbn [conversations]. rewrite lookup_insert_eq.
  eexists. split; [reflexivity|]. cbn [conversations]. apply lookup_insert_eq.
Qed.

(** X22. [POST /test] hands the service the message of the body when it is
    truthy and the default text otherwise, under the session [test_<now>]
    and the [travel] context.  When that value is a string (never an empty
    one) the answer is 200 with [success: true] and embeds exactly what
    [processMessage] returned, a failure included: if the upstream call is
    rejected the answer is still 200, around a failure, and the user turn
    stays recorded.  When it is not a string the service throws and the
    answer is 500 [Chat service test failed], with no upstream call and the
    service as it was. *)
Theorem post_test_embeds_result (net : PostCall → AxiosOutcome)
    (message : JsVal) (now : Z) (st : ChatService) :
  let testSessionId := lit "test_" ++ int_to_str now in
  let options := mkOptions (Some (lit "travel")) None None None None in
  (∀ text, test_text message = Some text →
     text ≠ []
     ∧ run net (post_test cfg message now st)
       = (let '(response, st', calls) :=
            run net (processMessage cfg (Some text) (Some testSessionId)
                       options st) in
          (mkReply 200 (RTest text testSessionId response), st', calls)))
  ∧ (test_text message = None →
     run net (post_test cfg message now st)
     = (mkReply 500
          (RError (lit "Chat service test failed")
             (Some (JStr (lit "userMessage.trim is not a function")))),
        st, []))
  ∧ (∀ text e, test_text message = Some text → trim text ≠ [] →
       (∀ call, net call = Rejected e) →
       ∃ error details call,
         run net (post_test cfg message now st)
         = (mkReply 200 (RTest text testSessionId (Failure error details)),
            snd (createChatRequest cfg text testSessionId options st), [call])).
Proof.
  intros testSessionId options.
  assert (Hrun : ∀ text, test_text message = Some text →
            text ≠ []
            ∧ run net (post_test cfg message now st)
              = (let '(response, st', calls) :=
                   run net (processMessage cfg (Some text) (Some testSessionId)
                              options st) in
                 (mkReply 200 (RTest text testSessionId response), st', calls))).
  { intros text Htext. unfold test_text in Htext. unfold post_test.
    destruct (truthy message) eqn:Htruthy.
    - destruct message; try discriminate. injection Htext as ->.
      split; [destruct text; [discriminate|congruence]|].
      rewrite run_bind. fold testSessionId options.
      destruct (run net (processMessage cfg (Some text) (Some testSessionId)
                           options st)) as [[response st'] calls].
      cbn [run]. rewrite app_nil_r. reflexivity.
    - injection Htext as <-.
      split; [intros E; vm_compute in E; discriminate|].
      rewrite run_bind. fold testSessionId options.
      destruct (run net (processMessage cfg _ (Some testSessionId)
                           options st)) as [[response st'] calls].
      cbn [run]. rewrite app_nil_r. reflexivity. }
  split; [exact Hrun|]. split.
  - intros Hnone. unfold test_text in Hnone. unfold post_test.
    destruct (truthy message); [|discriminate].
    destruct message; try reflexivity. discriminate.
  - intros text e Htext Htrim Hnet.
    destruct (Hrun text Htext) as [_ ->].
    destruct (processMessage_outcome net text testSessionId options st Htrim)
      as (call & result & st1 & -> & _ & Hcases).
    { intros E. vm_compute in E. discriminate. }
    destruct Hcases as [(r & Hr & _)|(_ & -> & error & details & -> & _)].
    + rewrite Hnet in Hr. discriminate.
    + exists error, details, call. reflexivity.
Qed.

End RouteFacts.

(** ** Concrete runs of the further properties *)

Ltac not_listed :=
  let Hin := fresh "Hin" in
  intros Hin; apply list_elem_of_In in Hin; vm_compute in Hin;
  repeat (destruct Hin as [Hin|Hin]; [discriminate|]); exact Hin.

Lemma history_bound_all_operations_witness :
  0 <= maxHistoryMessages (chat small_window_cfg)
  ∧ Z.of_nat (length (history_of (exec small_window_cfg sample_ops new_service)
                        (lit "s1")))
    <= maxHistoryMessages (chat small_window_cfg).
Proof.
  split; [vm_compute; discriminate|].
  apply (history_bound_all_operations small_window_cfg sample_ops (lit "s1")).
  vm_compute. discriminate.
Defined.

Lemma request_size_bound_witness :
  0 <= maxHistoryMessages (chat small_window_cfg)
  ∧ Z.of_nat (length (messages
                        (fst (createChatRequest small_window_cfg (lit "more")
                                (lit "s1") no_options
                                (exec small_window_cfg sample_ops new_service)))))
    <= maxHistoryMessages (chat small_window_cfg) + 2.
Proof.
  split; [vm_compute; discriminate|].
  apply (request_size_bound small_window_cfg sample_ops (lit "more") (lit "s1")
           no_options).
  vm_compute. discriminate.
Defined.

Lemma negative_window_keeps_nothing_witness :
  maxHistoryMessages (chat negative_window_cfg) < 0
  ∧ history_of (addToConversation negative_window_cfg (lit "s1")
                  (stored 7 "user" "a") new_service) (lit "s1") = []
  ∧ history_of (snd (createChatRequest negative_window_cfg (lit "hi") (lit "s1")
                       no_options new_service)) (lit "s1") = [].
Proof.
  split; [vm_compute; reflexivity|].
  apply (negative_window_keeps_nothing negative_window_cfg (lit "s1")
           (stored 7 "user" "a") (lit "hi") no_options new_service).
  vm_compute. reflexivity.
Defined.

Lemma processMessage_success_iff_witness :
  trim (lit "hi") ≠ [] ∧ lit "s1" ≠ []
  ∧ is_success
      (fst (fst (run (fun _ => no_reply)
                   (processMessage sample_cfg (Some (lit "hi")) (Some (lit "s1"))
                      no_options new_service))))
    = match no_reply with
      | Resolved r => well_formed_reply r
      | Rejected _ => false
      end.
Proof.
  split; [vm_compute; discriminate|]. split; [vm_compute; discriminate|].
  apply (processMessage_success_iff sample_cfg no_reply (lit "hi") (lit "s1")
           no_options new_service); vm_compute; discriminate.
Defined.

Lemma processMessage_success_witness :
  trim (lit " hi ") ≠ [] ∧ lit "s1" ≠ []
  ∧ (∀ call : PostCall, (fun _ => Resolved sample_response) call
                        = Resolved sample_response)
  ∧ well_formed_reply sample_response = true
  ∧ let userMsg := new_user_message (lit " hi ") new_service in
    let assistantMsg :=
      mkMsg (S (S (fresh new_service)))
        (first_choice_message (data sample_response)) in
    ∃ call st',
      run (fun _ => Resolved sample_response)
        (processMessage sample_cfg (Some (lit " hi ")) (Some (lit "s1"))
           no_options new_service)
      = (Success (get_field "content" (first_choice_message (data sample_response)))
           (get_field "usage" (data sample_response))
           (get_field "model" (data sample_response))
           (length (history_of st' (lit "s1"))), st', [call])
      ∧ post_body call
        = fst (createChatRequest sample_cfg (lit " hi ") (lit "s1") no_options
                 new_service)
      ∧ history_of st' (lit "s1")
        = window sample_cfg
            (window sample_cfg (history_of new_service (lit "s1") ++ [userMsg])
             ++ [assistantMsg])
      ∧ (∀ other, other ≠ lit "s1" →
                  history_of st' other = history_of new_service other)
      ∧ (2 <= maxHistoryMessages (chat sample_cfg) →
         ∃ before, history_of st' (lit "s1") = before ++ [userMsg; assistantMsg]).
Proof.
  split; [vm_compute; discriminate|]. split; [vm_compute; discriminate|].
  split; [reflexivity|]. split; [vm_compute; reflexivity|].
  apply (processMessage_success sample_cfg (fun _ => Resolved sample_response)
           sample_response (lit " hi ") (lit "s1") no_options new_service);
    [vm_compute; discriminate | vm_compute; discriminate
    | reflexivity | vm_compute; reflexivity].
Defined.

Lemma operations_leave_other_sessions_witness :
  op_session first_turn ≠ Some (lit "s2")
  ∧ history_of (exec_op sample_cfg after_one_turn first_turn) (lit "s2")
    = history_of after_one_turn (lit "s2").
Proof.
  split; [vm_compute; discriminate|].
  apply (operations_leave_other_sessions sample_cfg first_turn after_one_turn
           (lit "s2")).
  vm_compute. discriminate.
Defined.

Lemma history_recorded_when_not_sent_witness :
  opt_includeHistory no_history_options = Some false
  ∧ messages (fst (createChatRequest sample_cfg (lit "bye") (lit "s1")
                     no_history_options after_one_turn))
    = [new_system_message sample_cfg no_history_options after_one_turn;
       new_user_message (lit "bye") after_one_turn]
  ∧ history_of (snd (createChatRequest sample_cfg (lit "bye") (lit "s1")
                       no_history_options after_one_turn)) (lit "s1")
    = window sample_cfg
        (history_of after_one_turn (lit "s1")
         ++ [new_user_message (lit "bye") after_one_turn]).
Proof.
  split; [reflexivity|].
  apply (history_recorded_when_not_sent sample_cfg (lit "bye") (lit "s1")
           no_history_options after_one_turn).
  reflexivity.
Defined.

Lemma stored_user_content_trimmed_witness :
  trim (lit " hi ") ≠ [] ∧ lit "s1" ≠ []
  ∧ 1 <= maxHistoryMessages (chat sample_cfg)
  ∧ ∃ st1 call k m,
      processMessage sample_cfg (Some (lit " hi ")) (Some (lit "s1")) no_options
        new_service
      = Await st1 call k
      ∧ last (history_of st1 (lit "s1")) = Some m
      ∧ last (messages (post_body call)) = Some m
      ∧ role_of m = JStr (lit "user")
      ∧ content_of m = JStr (trim (lit " hi "))
      ∧ trim (trim (lit " hi ")) = trim (lit " hi ")
      ∧ (∀ x, head (trim (lit " hi ")) = Some x → isWhiteSpace x = false)
      ∧ (∀ x, last (trim (lit " hi ")) = Some x → isWhiteSpace x = false).
Proof.
  split; [vm_compute; discriminate|]. split; [vm_compute; discriminate|].
  split; [vm_compute; discriminate|].
  apply (stored_user_content_trimmed sample_cfg (lit " hi ") (lit "s1")
           no_options new_service); vm_compute; discriminate.
Defined.

Lemma context_fallback_witness :
  (lit "nonexistent" ∉ template_names)
  ∧ (lit "nonexistent" ∉ object_prototype_keys)
  ∧ buildSystemPrompt sample_cfg (lit "nonexistent") user_al
    = buildSystemPrompt sample_cfg (lit "general") user_al
  ∧ buildSystemPrompt sample_cfg (lit "nonexistent") user_al
    = message_literal "system"
        (JStr (tpl_content (general (systemPrompts sample_cfg))
               ++ personalization user_al)).
Proof.
  split; [not_listed|]. split; [not_listed|].
  apply (context_fallback sample_cfg (lit "nonexistent") user_al); not_listed.
Defined.

Lemma stats_count_turns_witness :
  Forall reply_is_assistant sample_ops
  ∧ let st := exec sample_cfg sample_ops new_service in
    let stats := fst (getConversationStats (lit "s1") st) in
    totalMessages stats = length (history_of st (lit "s1"))
    ∧ (userMessages stats + assistantMessages stats)%nat = totalMessages stats
    ∧ ∀ other, history_of (snd (getConversationStats (lit "s1") st)) other
               = history_of st other.
Proof.
  assert (Hops : Forall reply_is_assistant sample_ops).
  { unfold sample_ops.
    repeat (apply List.Forall_cons;
            [try exact I; intros _; vm_compute; reflexivity|]).
    apply List.Forall_nil. }
  split; [exact Hops|].
  apply (stats_count_turns sample_cfg sample_ops (lit "s1") Hops).
Defined.

Lemma post_message_requires_message_witness :
  present (body_message session_only_body) = false
  ∧ run (fun _ => no_reply)
      (post_message sample_cfg session_only_body 1700000000000 (lit "abc123xyz")
         after_one_turn)
    = (mkReply 400 (RError (lit "Message is required") None), after_one_turn, []).
Proof.
  split; [reflexivity|].
  apply (post_message_requires_message sample_cfg (fun _ => no_reply)
           session_only_body 1700000000000 (lit "abc123xyz") after_one_turn).
  reflexivity.
Defined.

Lemma post_message_blank_message_witness :
  body_message blank_message_body = Some (lit "  ")
  ∧ lit "  " ≠ [] ∧ trim (lit "  ") = []
  ∧ run (fun _ => no_reply)
      (post_message sample_cfg blank_message_body 1700000000000
         (lit "abc123xyz") after_one_turn)
    = (mkReply 500 (RError (lit "Message cannot be empty") None),
       after_one_turn, []).
Proof.
  split; [reflexivity|]. split; [vm_compute; discriminate|].
  split; [vm_compute; reflexivity|].
  apply (post_message_blank_message sample_cfg (fun _ => no_reply)
           blank_message_body (lit "  ") 1700000000000 (lit "abc123xyz")
           after_one_turn);
    [reflexivity | vm_compute; discriminate | vm_compute; reflexivity].
Defined.

Lemma post_message_success_witness :
  body_message message_only_body = Some (lit " hi ")
  ∧ trim (lit " hi ") ≠ []
  ∧ (∀ call : PostCall, (fun _ => Resolved sample_response) call
                        = Resolved sample_response)
  ∧ well_formed_reply sample_response = true
  ∧ let actualSessionId :=
      str_or (body_sessionId message_only_body)
        (generated_session_id 1700000000000 (lit "abc123xyz")) in
    ∃ call stats st',
      run (fun _ => Resolved sample_response)
        (post_message sample_cfg message_only_body 1700000000000
           (lit "abc123xyz") new_service)
      = (mkReply 200
           (RChat (get_field "content"
                     (first_choice_message (data sample_response)))
              actualSessionId (get_field "usage" (data sample_response))
              (get_field "model" (data sample_response)) stats), st', [call])
      ∧ temperature (post_body call) = (7 # 10)%Q
      ∧ max_tokens (post_body call) = 500
      ∧ totalMessages stats = length (history_of st' actualSessionId)
      ∧ history_of st' actualSessionId
        = window sample_cfg
            (window sample_cfg
               (history_of new_service actualSessionId
                ++ [new_user_message (lit " hi ") new_service])
             ++ [mkMsg (S (S (fresh new_service)))
                   (first_choice_message (data sample_response))]).
Proof.
  split; [reflexivity|]. split; [vm_compute; discriminate|].
  split; [reflexivity|]. split; [vm_compute; reflexivity|].
  apply (post_message_success sample_cfg (fun _ => Resolved sample_response)
           sample_response message_only_body (lit " hi ") 1700000000000
           (lit "abc123xyz") new_service);
    [reflexivity | vm_compute; discriminate | reflexivity
    | vm_compute; reflexivity].
Defined.
